(** * Embedding generation and vector ingestion pipeline

    A shallow embedding of the two pipeline scripts of the repository,

    - [tools/vectorize/02_batch_embed.py]   (module [Embed]),
    - [tools/migration/03_insert_vectorize.py] (module [Insert]),

    and the properties of the specification that concern them.

    Conventions of the embedding.

    - The remote services are oracles: a function from the number of
      requests made so far (and the payload) to the outcome of the next
      request.  Everything the code does with a response is determined by
      the outcome classes below.
    - [time.sleep] and the remote requests are recorded, in order, in a
      trace; the disk is part of the state.  Console output is not
      modelled.
    - A Python exception that leaves a function is a [Raise] result. *)

From Equations Require Import Equations.
From stdpp Require Import gmap strings list pretty.
From Stdlib Require Import ZArith QArith Lia.

Open Scope Z_scope.

(** ** Python values shared by both scripts *)

Module Py.

(** A binary64 float, carried around by its bit pattern; the scripts never
    compute with the components of a vector. *)
Inductive pyfloat := Float64 (bits : N).

(** The scalar JSON values a lesson field can hold. *)
Inductive pyval :=
| PNone
| PInt (z : Z)
| PStr (s : string).

(** [str(v)], which is what an f-string replacement field inserts. *)
Definition py_str (v : pyval) : string :=
  match v with
  | PNone => "None"
  | PInt z => pretty z
  | PStr s => s
  end.

(** Truthiness of a string ([not s] is [negb (str_truthy s)]). *)
Definition str_truthy (s : string) : bool :=
  match s with
  | EmptyString => false
  | String _ _ => true
  end.

(** Truthiness of a list. *)
Definition list_truthy {A} (l : list A) : bool :=
  match l with
  | [] => false
  | _ :: _ => true
  end.

End Py.
Import Py.

(** ** [03_insert_vectorize.py]: the batch uploader *)

Module Insert.

Definition BATCH_SIZE : Z := 100.
Definition MAX_RETRIES : Z := 3.
Definition RETRY_DELAY : Z := 5.

(** One element of the [vectors] argument,
    [{"id": ..., "values": [...], "metadata": {...}}]. *)
Record vector_entry := {
  vec_id : string;
  vec_values : list pyfloat;
  vec_metadata : gmap string pyval
}.

(** What the [try] block of [insert_batch] can observe of one POST.
    [PostRaises] covers every exception raised inside the [try]:
    a transport error or timeout of [requests.post], an HTTP error status
    ([raise_for_status]), a body that is not JSON, a JSON body that is not
    an object.  [PostResult b] is a JSON object whose ["success"] entry has
    truthiness [b] ([result.get("success")]; absent counts as false). *)
Inductive post_outcome :=
| PostRaises
| PostResult (success : bool).

Inductive event :=
| EvPost (vectors : list vector_entry)
| EvSleep (seconds : Z).

(** The [VectorizeInserter] object together with the trace of the effects
    performed so far (oldest first). *)
Record state := {
  inserted_count : Z;
  failed_ids : list string;
  trace : list event
}.

(** [VectorizeInserter.__init__] *)
Definition init : state :=
  {| inserted_count := 0; failed_ids := []; trace := [] |}.

Definition is_post (e : event) : bool :=
  match e with EvPost _ => true | EvSleep _ => false end.

Definition is_sleep (e : event) : bool :=
  match e with EvSleep _ => true | EvPost _ => false end.

(** Number of POST requests in a trace. *)
Definition posts (t : list event) : nat := length (List.filter is_post t).

Definition sleeps (t : list event) : list event := List.filter is_sleep t.

Definition log (e : event) (st : state) : state :=
  {| inserted_count := inserted_count st;
     failed_ids := failed_ids st;
     trace := trace st ++ [e] |}.

(** [self.inserted_count += n] *)
Definition add_inserted (n : Z) (st : state) : state :=
  {| inserted_count := inserted_count st + n;
     failed_ids := failed_ids st;
     trace := trace st |}.

(** [for vec in vectors: self.failed_ids.append(vec['id'])] *)
Definition mark_failed (vectors : list vector_entry) (st : state) : state :=
  {| inserted_count := inserted_count st;
     failed_ids := failed_ids st ++ map vec_id vectors;
     trace := trace st |}.

Section Uploader.

(** The remote index: the outcome of the POST made after [n] earlier
    POSTs, for the given payload. *)
Variable vectorize : nat -> list vector_entry -> post_outcome.

(** [VectorizeInserter.insert_batch].  The recursion is the source's
    self-call; it is well founded because the self-call is guarded by
    [retry_count < MAX_RETRIES] and increments [retry_count]. *)
Equations? insert_batch (vectors : list vector_entry) (retry_count : Z)
    (st : state) : bool * state
    by wf (Z.to_nat (MAX_RETRIES + 1 - retry_count)) lt :=
insert_batch vectors retry_count st
    with vectorize (posts (trace st)) vectors := {
  | PostResult true =>
      (true, add_inserted (Z.of_nat (length vectors)) (log (EvPost vectors) st))
  | PostResult false =>
      (false, log (EvPost vectors) st)
  | PostRaises with Z_lt_dec retry_count MAX_RETRIES := {
    | left _ =>
        insert_batch vectors (retry_count + 1)
          (log (EvSleep RETRY_DELAY) (log (EvPost vectors) st))
    | right _ =>
        (false, mark_failed vectors (log (EvPost vectors) st)) } }.
Proof. lia. Qed.

End Uploader.

End Insert.

(** ** [02_batch_embed.py]: the embedding generator *)

Module Embed.

Definition REQUESTS_PER_MINUTE : Z := 50.
Definition BATCH_SIZE : Z := 10.

(** The argument of the rate-limit [time.sleep], in seconds:
    [60 / REQUESTS_PER_MINUTE * BATCH_SIZE] with Python's true division,
    kept as an exact rational. *)
Definition rate_limit_pause : Q :=
  (inject_Z 60 / inject_Z REQUESTS_PER_MINUTE * inject_Z BATCH_SIZE)%Q.

(** *** Data *)

(** A lesson dict, restricted to the keys the script reads; [None] is an
    absent key.  The id is a string (it becomes a key of the JSON cache). *)
Record lesson := {
  id : option string;
  title : option pyval;
  tacticalConcept : option pyval;
  historicalValidator : option pyval;
  phase : option pyval;
  moduleId : option pyval
}.

(** The ["metadata"] dict of a cache entry. *)
Record metadata := {
  md_title : pyval;
  md_phase : pyval;
  md_module_id : pyval;
  md_concept : pyval
}.

(** A cache entry, [{"vector": ..., "text": ..., "metadata": {...}}]. *)
Record entry := {
  vector : list pyfloat;
  text : string;
  entry_metadata : metadata
}.

(** A file is absent ([None]), or holds bytes that [json.load] rejects
    ([Unparseable]; an empty file is one), or holds a JSON document. *)
Inductive file_content (A : Type) :=
| Unparseable
| Document (doc : A).
Arguments Unparseable {A}.
Arguments Document {A} doc.

(** [data/curriculum.json], seen through [curriculum.get("lessons", [])]:
    the document is the value of its ["lessons"] key, if it has one.
    [data/embeddings/lesson_vectors.json] holds the cache mapping. *)
Record Disk := {
  curriculum_json : option (file_content (option (list lesson)));
  embeddings_dir : bool;
  lesson_vectors_json : option (file_content (gmap string entry))
}.

(** What [generate_embedding] can observe of one request.
    [EmbedRaises]: an exception inside the [try] (transport error,
    timeout, HTTP error status, invalid JSON, or a success response
    without [result["data"][0]]).
    [EmbedUnexpected]: a JSON object whose ["success"] is falsy or that has
    no ["result"] key.
    [EmbedData v]: a success response with [result["data"][0] = v]. *)
Inductive embed_outcome :=
| EmbedRaises
| EmbedUnexpected
| EmbedData (v : list pyfloat).

Inductive event :=
| EvEmbed (text : string)
| EvSleep (seconds : Q).

Inductive exn :=
| KeyError (key : string)
| JSONDecodeError.

Inductive result (A : Type) :=
| Ok (a : A)
| Raise (e : exn).
Arguments Ok {A} a.
Arguments Raise {A} e.

(** The [EmbeddingGenerator] object ([embeddings_cache]), the disk and the
    trace of remote requests and sleeps (oldest first). *)
Record state := {
  embeddings_cache : gmap string entry;
  disk : Disk;
  trace : list event
}.

(** *** A state and exception monad *)

Definition M (A : Type) : Type := state -> result A * state.

Definition ret {A} (a : A) : M A := fun st => (Ok a, st).

Definition raise {A} (e : exn) : M A := fun st => (Raise e, st).

Definition bind {A B} (m : M A) (k : A -> M B) : M B :=
  fun st =>
    match m st with
    | (Ok a, st') => k a st'
    | (Raise e, st') => (Raise e, st')
    end.

Declare Scope py_scope.
Delimit Scope py_scope with py.
Notation "x <- m ;; k" := (bind m (fun x => k))
  (at level 100, m at next level, right associativity) : py_scope.
Notation "m ;; k" := (bind m (fun _ => k))
  (at level 100, right associativity) : py_scope.
Open Scope py_scope.

Definition lift {A} (r : result A) : M A := fun st => (r, st).

(** [d[key]] on a key that may be absent. *)
Definition getitem {A} (key : string) (field : option A) : result A :=
  match field with
  | Some v => Ok v
  | None => Raise (KeyError key)
  end.

Definition rbind {A B} (r : result A) (k : A -> result B) : result B :=
  match r with
  | Ok a => k a
  | Raise e => Raise e
  end.

Definition log (e : event) : M unit :=
  fun st => (Ok tt, {| embeddings_cache := embeddings_cache st;
                       disk := disk st;
                       trace := trace st ++ [e] |}).

Definition set_cache (c : gmap string entry) : M unit :=
  fun st => (Ok tt, {| embeddings_cache := c;
                       disk := disk st;
                       trace := trace st |}).

Definition set_disk (d : Disk) : M unit :=
  fun st => (Ok tt, {| embeddings_cache := embeddings_cache st;
                       disk := d;
                       trace := trace st |}).

Definition when (b : bool) (m : M unit) : M unit :=
  if b then m else ret tt.

Definition is_embed (e : event) : bool :=
  match e with EvEmbed _ => true | EvSleep _ => false end.

Definition is_sleep (e : event) : bool :=
  match e with EvSleep _ => true | EvEmbed _ => false end.

(** Number of remote embedding requests in a trace. *)
Definition requests (t : list event) : nat := length (List.filter is_embed t).

(** Number of pauses in a trace. *)
Definition pauses (t : list event) : nat := length (List.filter is_sleep t).

(** *** The cache store *)

(** [EmbeddingGenerator._load_cache] *)
Definition _load_cache : M unit :=
  fun st =>
    match lesson_vectors_json (disk st) with
    | Some (Document m) => set_cache m st
    | Some Unparseable => raise JSONDecodeError st
    | None => ret tt st
    end.

(** The file-system operations of [_save_cache], in program order:
    [mkdir(parents=True, exist_ok=True)] of the parent directory,
    [open(self.cache_file, 'w')], which creates or truncates the file, and
    [json.dump], which writes the document into it. *)
Inductive fs_op :=
| Mkdir_parent
| Open_w
| Json_dump (c : gmap string entry).

Definition apply_op (d : Disk) (op : fs_op) : Disk :=
  match op with
  | Mkdir_parent =>
      {| curriculum_json := curriculum_json d;
         embeddings_dir := true;
         lesson_vectors_json := lesson_vectors_json d |}
  | Open_w =>
      {| curriculum_json := curriculum_json d;
         embeddings_dir := embeddings_dir d;
         lesson_vectors_json := Some Unparseable |}
  | Json_dump c =>
      {| curriculum_json := curriculum_json d;
         embeddings_dir := embeddings_dir d;
         lesson_vectors_json := Some (Document c) |}
  end.

Definition save_ops (c : gmap string entry) : list fs_op :=
  [Mkdir_parent; Open_w; Json_dump c].

(** The disk when the process stops after the first [k] operations of a
    flush of [c]. *)
Definition interrupted_save (k : nat) (c : gmap string entry) (d : Disk) : Disk :=
  fold_left apply_op (take k (save_ops c)) d.

(** [EmbeddingGenerator._save_cache] *)
Definition _save_cache : M unit :=
  fun st =>
    set_disk (fold_left apply_op (save_ops (embeddings_cache st)) (disk st)) st.

(** [EmbeddingGenerator.__init__]: the cache starts empty, then
    [_load_cache] runs. *)
Definition __init__ : M unit :=
  set_cache ∅ ;; _load_cache.

(** *** The text canonicalizer *)

(** [EmbeddingGenerator.create_lesson_text].  The replacement fields are
    evaluated left to right; the three subscripts raise [KeyError] on an
    absent key, [lesson.get('phase', 'UNKNOWN')] does not. *)
Definition create_lesson_text (l : lesson) : result string :=
  rbind (getitem "title" (title l)) (fun t =>
  rbind (getitem "tacticalConcept" (tacticalConcept l)) (fun c =>
  rbind (getitem "historicalValidator" (historicalValidator l)) (fun v =>
  Ok (py_str t +:+ " | " +:+
      py_str c +:+ " | " +:+
      py_str v +:+ " | " +:+
      "Phase: " +:+ py_str (default (PStr "UNKNOWN") (phase l)))))).

(** *** The generator *)

(** The three counters of the summary. *)
Record counters := {
  embedded : Z;
  skipped : Z;
  failed : Z
}.

Definition incr_embedded (c : counters) : counters :=
  {| embedded := embedded c + 1; skipped := skipped c; failed := failed c |}.

Definition incr_skipped (c : counters) : counters :=
  {| embedded := embedded c; skipped := skipped c + 1; failed := failed c |}.

Definition incr_failed (c : counters) : counters :=
  {| embedded := embedded c; skipped := skipped c; failed := failed c + 1 |}.

(** [if embedding:] on the [Optional[List[float]]] that
    [generate_embedding] returns: [None] and the empty list are falsy. *)
Definition truthy (embedding : option (list pyfloat)) : bool :=
  match embedding with
  | Some v => list_truthy v
  | None => false
  end.

(** [lesson_id in self.embeddings_cache] *)
Definition contains (c : gmap string entry) (k : string) : bool :=
  match c !! k with
  | Some _ => true
  | None => false
  end.

Section Generator.

(** The embedding service: the outcome of the request made after [n]
    earlier requests, for the given text. *)
Variable workers_ai : nat -> string -> embed_outcome.

(** [EmbeddingGenerator.generate_embedding]: every failure is turned into
    [None] inside the function. *)
Definition generate_embedding (text : string) : M (option (list pyfloat)) :=
  fun st =>
    let response := workers_ai (requests (trace st)) text in
    (log (EvEmbed text) ;;
     match response with
     | EmbedData v => ret (Some v)
     | EmbedUnexpected => ret None
     | EmbedRaises => ret None
     end) st.

(** [self.embeddings_cache[lesson_id] = {...}] *)
Definition put (lesson_id : string) (e : entry) : M unit :=
  fun st => set_cache (<[lesson_id := e]> (embeddings_cache st)) st.

(** One iteration of the [for i, lesson in enumerate(lessons, 1)] loop of
    [batch_embed_lessons], from the counters before it to the counters
    after it.  The cache-hit branch ends in [continue]: it skips the rest
    of the body, the rate-limit pause and the periodic save included. *)
Definition embed_lesson (force_regen : bool) (i : Z) (l : lesson)
    (c : counters) : M counters :=
  lesson_id <- lift (getitem "id" (id l)) ;;
  fun st =>
    if contains (embeddings_cache st) lesson_id && negb force_regen
    then ret (incr_skipped c) st
    else
      (lesson_text <- lift (create_lesson_text l) ;;
       embedding <- generate_embedding lesson_text ;;
       c' <- (if truthy embedding then
                t <- lift (getitem "title" (title l)) ;;
                k <- lift (getitem "tacticalConcept" (tacticalConcept l)) ;;
                put lesson_id
                  {| vector := default [] embedding;
                     text := lesson_text;
                     entry_metadata :=
                       {| md_title := t;
                          md_phase := default PNone (phase l);
                          md_module_id := default PNone (moduleId l);
                          md_concept := k |} |} ;;
                ret (incr_embedded c)
              else ret (incr_failed c)) ;;
       when (i mod BATCH_SIZE =? 0) (log (EvSleep rate_limit_pause)) ;;
       when (i mod 20 =? 0) _save_cache ;;
       ret c') st.

(** The loop itself: [i] is the 1-based position of the head of the
    remaining lessons. *)
Fixpoint embed_from (force_regen : bool) (i : Z) (lessons : list lesson)
    (c : counters) : M counters :=
  match lessons with
  | [] => ret c
  | l :: rest =>
      c' <- embed_lesson force_regen i l c ;;
      embed_from force_regen (i + 1) rest c'
  end.

(** [EmbeddingGenerator.batch_embed_lessons]; the result is the triple of
    counters that the summary prints. *)
Definition batch_embed_lessons (lessons : list lesson) (force_regen : bool)
    : M counters :=
  c <- embed_from force_regen 1 lessons
         {| embedded := 0; skipped := 0; failed := 0 |} ;;
  _save_cache ;;
  ret c.

(** [main] *)
Definition main : M unit :=
  fun st =>
    match curriculum_json (disk st) with
    | None => ret tt st
    | Some Unparseable => raise JSONDecodeError st
    | Some (Document curriculum) =>
        let lessons := default [] curriculum in
        if negb (list_truthy lessons) then ret tt st
        else (__init__ ;; batch_embed_lessons lessons false ;; ret tt) st
    end.

(** The two environment variables read at import time. *)
Record environ := {
  CLOUDFLARE_ACCOUNT_ID : option string;
  CLOUDFLARE_API_TOKEN : option string
}.

(** [not os.getenv(...)]: the variable is unset or empty. *)
Definition unset (v : option string) : bool :=
  match v with
  | Some s => negb (str_truthy s)
  | None => true
  end.

(** What a run of the script leaves behind. *)
Record outcome := {
  exit_code : Z;
  final_disk : Disk;
  effects : list event
}.

(** The [if __name__ == "__main__":] block: the exit status of the
    process is 1 after [exit(1)] and after an uncaught exception, 0 when
    [main] returns. *)
Definition script (env : environ) (d : Disk) : outcome :=
  if unset (CLOUDFLARE_ACCOUNT_ID env) || unset (CLOUDFLARE_API_TOKEN env)
  then {| exit_code := 1; final_disk := d; effects := [] |}
  else
    match main {| embeddings_cache := ∅; disk := d; trace := [] |} with
    | (Ok _, st) =>
        {| exit_code := 0; final_disk := disk st; effects := trace st |}
    | (Raise _, st) =>
        {| exit_code := 1; final_disk := disk st; effects := trace st |}
    end.

End Generator.

End Embed.

(** ** Concrete inputs and trace shapes used by the statements below *)

Module InsertScenarios.

Import Insert.

Definition vecL01 : vector_entry :=
  {| vec_id := "L01"; vec_values := [Float64 1; Float64 2]; vec_metadata := ∅ |}.

Definition vecL02 : vector_entry :=
  {| vec_id := "L02"; vec_values := [Float64 3; Float64 4]; vec_metadata := ∅ |}.

Definition batch0 : list vector_entry := [vecL01; vecL02].

(** An index that answers every POST with a JSON body
    [{"success": false}]. *)
Definition index_rejects : nat -> list vector_entry -> post_outcome :=
  fun _ _ => PostResult false.

(** An index that cannot be reached. *)
Definition index_down : nat -> list vector_entry -> post_outcome :=
  fun _ _ => PostRaises.

(** The trace of [n] failed attempts, each followed by the retry delay,
    and a last attempt. *)
Definition retry_trace (vectors : list vector_entry) (n : nat) : list event :=
  concat (replicate n [EvPost vectors; EvSleep RETRY_DELAY]) ++ [EvPost vectors].

End InsertScenarios.

Module EmbedScenarios.

Import Embed.

(** A lesson with every field present. *)
Definition mk_lesson (k : string) (n : Z) : lesson :=
  {| id := Some k;
     title := Some (PStr ("Lesson " +:+ k));
     tacticalConcept := Some (PStr "Concept");
     historicalValidator := Some (PStr "Validator");
     phase := Some (PStr "Foundation");
     moduleId := Some (PInt n) |}.

(** The same lesson without the optional ["phase"] key. *)
Definition no_phase (k : string) (n : Z) : lesson :=
  {| id := Some k;
     title := Some (PStr ("Lesson " +:+ k));
     tacticalConcept := Some (PStr "Concept");
     historicalValidator := Some (PStr "Validator");
     phase := None;
     moduleId := Some (PInt n) |}.

Definition ten_lessons : list lesson :=
  [mk_lesson "L01" 1; mk_lesson "L02" 1; mk_lesson "L03" 1; mk_lesson "L04" 1;
   mk_lesson "L05" 1; mk_lesson "L06" 2; mk_lesson "L07" 2; mk_lesson "L08" 2;
   mk_lesson "L09" 2; mk_lesson "L10" 2].

Definition some_entry : entry :=
  {| vector := [Float64 7; Float64 8];
     text := "Lesson L10 | Concept | Validator | Phase: Foundation";
     entry_metadata :=
       {| md_title := PStr "Lesson L10"; md_phase := PStr "Foundation";
          md_module_id := PInt 2; md_concept := PStr "Concept" |} |}.

(** A cache that holds the tenth lesson only. *)
Definition cache_L10 : gmap string entry := {[ "L10" := some_entry ]}.

(** A service that answers every request with a two-dimensional vector. *)
Definition service_up : nat -> string -> embed_outcome :=
  fun _ _ => EmbedData [Float64 1; Float64 2].

(** A service that answers every request with a well-formed success
    response whose vector is empty. *)
Definition service_empty : nat -> string -> embed_outcome :=
  fun _ _ => EmbedData [].

Definition env_ok : environ :=
  {| CLOUDFLARE_ACCOUNT_ID := Some "acct"; CLOUDFLARE_API_TOKEN := Some "token" |}.

Definition env_no_token : environ :=
  {| CLOUDFLARE_ACCOUNT_ID := Some "acct"; CLOUDFLARE_API_TOKEN := None |}.

(** A curriculum whose lesson list is empty, next to a populated cache. *)
Definition disk_no_lessons : Disk :=
  {| curriculum_json := Some (Document (Some []));
     embeddings_dir := true;
     lesson_vectors_json := Some (Document cache_L10) |}.

(** One lesson to embed, and a cache file that is not JSON. *)
Definition disk_corrupt_cache : Disk :=
  {| curriculum_json := Some (Document (Some [mk_lesson "L01" 1]));
     embeddings_dir := true;
     lesson_vectors_json := Some Unparseable |}.

(** One lesson to embed, and a cache with a durable snapshot. *)
Definition disk_with_snapshot : Disk :=
  {| curriculum_json := Some (Document (Some [mk_lesson "L01" 1]));
     embeddings_dir := true;
     lesson_vectors_json := Some (Document cache_L10) |}.

Definition fresh (c : gmap string entry) (d : Disk) : state :=
  {| embeddings_cache := c; disk := d; trace := [] |}.

(** A lesson whose id is not a key of the cache, or that has no id, is
    not a cache hit. *)
Definition uncached (c : gmap string entry) (l : lesson) : bool :=
  match id l with
  | Some k => negb (contains c k)
  | None => true
  end.

(** A lesson without the ["id"] key. *)
Definition no_id : lesson :=
  {| id := None;
     title := Some (PStr "Untitled");
     tacticalConcept := Some (PStr "Concept");
     historicalValidator := Some (PStr "Validator");
     phase := None;
     moduleId := None |}.

(** A service that is down. *)
Definition service_down : nat -> string -> embed_outcome :=
  fun _ _ => EmbedRaises.



(** The counters at the start of a run. *)
Definition zero : counters := {| embedded := 0; skipped := 0; failed := 0 |}.

(** A lesson that has its id and the three keys that are subscripted. *)
Definition complete (l : lesson) : bool :=
  match id l, title l, tacticalConcept l, historicalValidator l with
  | Some _, Some _, Some _, Some _ => true
  | _, _, _, _ => false
  end.

End EmbedScenarios.

(** ** [03_insert_vectorize.py]: [insert_all], [main] and the script *)

Module InsertRun.

Import Insert.

(** The part of a cache entry that [insert_all] reads: [data["vector"]]
    and [data["metadata"]]. *)
Record cached := {
  cached_vector : list pyfloat;
  cached_metadata : gmap string pyval
}.

(** The dict that [json.load] returns, in insertion order (the order
    [keys()] iterates in).  The keys of a dict are pairwise distinct.
    The type holds the documents the generator writes: a JSON object
    whose values have ["vector"] and ["metadata"].  Other JSON documents,
    on which [keys()] or a subscript raises, are not represented. *)
Definition pydict : Type := list (string * cached).

(** [list(d.keys())] *)
Definition keys (d : pydict) : list string := map fst d.

(** [d[k]], [None] when [k] is not a key. *)
Fixpoint dict_get (d : pydict) (k : string) : option cached :=
  match d with
  | [] => None
  | (k', v) :: d' => if String.eqb k' k then Some v else dict_get d' k
  end.

(** [range(start, stop, step)] for a positive [step]. *)
Definition py_range (start stop step : Z) : list Z :=
  map (fun k => start + Z.of_nat k * step)
      (seq 0 (Z.to_nat ((stop - start + step - 1) / step))).

(** [l[i:j]] for non-negative [i] and [j]; bounds past the end are
    clamped, as in Python. *)
Definition py_slice {A} (l : list A) (i j : Z) : list A :=
  take (Z.to_nat (j - i)) (drop (Z.to_nat i) l).

(** The dict literal built for one id. *)
Definition vector_of (lesson_id : string) (data : cached) : vector_entry :=
  {| vec_id := lesson_id;
     vec_values := cached_vector data;
     vec_metadata := cached_metadata data |}.

(** The inner loop, which fills [batch_vectors].  Every [lesson_id] it
    sees is a key of [embeddings_cache], so the subscript finds it. *)
Definition batch_vectors (embeddings_cache : pydict) (batch_ids : list string)
    : list vector_entry :=
  omap (fun lesson_id => vector_of lesson_id <$> dict_get embeddings_cache lesson_id)
       batch_ids.

(** The argument of [insert_batch] in the iteration for index [i]. *)
Definition batch_at (embeddings_cache : pydict) (i : Z) : list vector_entry :=
  batch_vectors embeddings_cache
    (py_slice (keys embeddings_cache) i (i + BATCH_SIZE)).

(** The batches of a run, in the order the loop builds them. *)
Definition batches (embeddings_cache : pydict) : list (list vector_entry) :=
  map (batch_at embeddings_cache)
      (py_range 0 (Z.of_nat (length (keys embeddings_cache))) BATCH_SIZE).

Section Run.

Variable vectorize : nat -> list vector_entry -> post_outcome.

(** One iteration of [for i in range(0, total, BATCH_SIZE)]. *)
Definition insert_step (embeddings_cache : pydict) (st : state) (i : Z) : state :=
  let total := Z.of_nat (length (keys embeddings_cache)) in
  let st1 := snd (insert_batch vectorize (batch_at embeddings_cache i) 0 st) in
  if i + BATCH_SIZE <? total then log (EvSleep 1) st1 else st1.

(** [VectorizeInserter.insert_all] *)
Definition insert_all (embeddings_cache : pydict) (st : state) : state :=
  let total := Z.of_nat (length (keys embeddings_cache)) in
  fold_left (insert_step embeddings_cache) (py_range 0 total BATCH_SIZE) st.

(** The same run, batch by batch: a one-second sleep separates two
    consecutive batches. *)
Fixpoint run_batches (bs : list (list vector_entry)) (st : state) : state :=
  match bs with
  | [] => st
  | b :: rest =>
      let st1 := snd (insert_batch vectorize b 0 st) in
      run_batches rest (if list_truthy rest then log (EvSleep 1) st1 else st1)
  end.

(** How [main] ends: it returns, with the inserter if it built one, or
    [json.load] raises. *)
Inductive ending :=
| Returned (inserter : option state)
| Raised.

(** [main]; the argument is [data/embeddings/lesson_vectors.json]. *)
Definition main (cache_file : option (Embed.file_content pydict)) : ending :=
  match cache_file with
  | None => Returned None
  | Some Embed.Unparseable => Raised
  | Some (Embed.Document embeddings_cache) =>
      if negb (list_truthy embeddings_cache) then Returned None
      else Returned (Some (insert_all embeddings_cache init))
  end.

(** The [if __name__ == "__main__":] block: exit status and inserter. *)
Definition script (env : Embed.environ)
    (cache_file : option (Embed.file_content pydict)) : Z * option state :=
  if Embed.unset (Embed.CLOUDFLARE_ACCOUNT_ID env)
     || Embed.unset (Embed.CLOUDFLARE_API_TOKEN env)
  then (1, None)
  else
    match main cache_file with
    | Returned s => (0, s)
    | Raised => (1, None)
    end.

End Run.

End InsertRun.

(** Inputs for the statements about whole upload runs. *)

Module RunScenarios.

Import Insert InsertRun.

Definition some_cached : cached :=
  {| cached_vector := [Float64 1; Float64 2]; cached_metadata := ∅ |}.

(** A cache of [n] entries with keys ["0"], ["1"], ... *)
Definition cache_of_size (n : nat) : pydict :=
  map (fun k => (pretty (Z.of_nat k), some_cached)) (seq 0 n).

(** An index that accepts every batch. *)
Definition index_up : nat -> list vector_entry -> post_outcome :=
  fun _ _ => PostResult true.

(** An index that raises on the first two requests and accepts afterwards. *)
Definition index_recovers : nat -> list vector_entry -> post_outcome :=
  fun n _ => if (n <? 2)%nat then PostRaises else PostResult true.

(** An index that raises on the first four requests, that is on every
    attempt of the first batch, and accepts afterwards. *)
Definition index_fails_first_batch : nat -> list vector_entry -> post_outcome :=
  fun n _ => if (n <? 4)%nat then PostRaises else PostResult true.

(** Number of batches of a run over [n] keys. *)
Definition batch_count (n : nat) : nat :=
  Z.to_nat ((Z.of_nat n + BATCH_SIZE - 1) / BATCH_SIZE).

(** The one-second sleep that separates two batches. *)
Definition is_batch_pause (e : event) : bool :=
  match e with
  | EvSleep s => s =? 1
  | EvPost _ => false
  end.

Definition batch_pauses (t : list event) : nat :=
  length (List.filter is_batch_pause t).

(** The trace of a run in which every batch is accepted at once. *)
Fixpoint accepted_trace (bs : list (list vector_entry)) : list event :=
  match bs with
  | [] => []
  | b :: rest =>
      EvPost b :: (if list_truthy rest then EvSleep 1 :: accepted_trace rest
                   else accepted_trace rest)
  end.

(** Total number of vectors in a list of batches. *)
Definition total_size (bs : list (list vector_entry)) : nat :=
  length (concat bs).

End RunScenarios.

(** ** Properties of the batch uploader *)

Module InsertFacts.

Import Insert InsertScenarios.

Lemma posts_snoc_post t v : posts (t ++ [EvPost v]) = S (posts t).
Proof.
  unfold posts. rewrite List.filter_app, length_app. simpl. lia.
Qed.

Lemma posts_snoc_sleep t s : posts (t ++ [EvSleep s]) = posts t.
Proof.
  unfold posts. rewrite List.filter_app, length_app. simpl. lia.
Qed.

Lemma posts_app t u : posts (t ++ u) = (posts t + posts u)%nat.
Proof.
  unfold posts. now rewrite List.filter_app, length_app.
Qed.

Lemma posts_retry_trace vectors n : posts (retry_trace vectors n) = S n.
Proof.
  unfold retry_trace. rewrite posts_app.
  induction n as [|n IH]; [reflexivity|].
  unfold posts in *. simpl in *. lia.
Qed.

Section WithIndex.

Variable vectorize : nat -> list vector_entry -> post_outcome.

(** The four ways out of one call, one lemma each. *)

Lemma insert_batch_accepted vectors rc st :
  vectorize (posts (trace st)) vectors = PostResult true ->
  insert_batch vectorize vectors rc st =
    (true, add_inserted (Z.of_nat (length vectors)) (log (EvPost vectors) st)).
Proof.
  intros H. rewrite insert_batch_equation_1, H. now simp insert_batch.
Qed.

Lemma insert_batch_rejected vectors rc st :
  vectorize (posts (trace st)) vectors = PostResult false ->
  insert_batch vectorize vectors rc st = (false, log (EvPost vectors) st).
Proof.
  intros H. rewrite insert_batch_equation_1, H. now simp insert_batch.
Qed.

Lemma insert_batch_retry vectors rc st :
  vectorize (posts (trace st)) vectors = PostRaises ->
  rc < MAX_RETRIES ->
  insert_batch vectorize vectors rc st =
    insert_batch vectorize vectors (rc + 1)
      (log (EvSleep RETRY_DELAY) (log (EvPost vectors) st)).
Proof.
  intros H Hlt. rewrite insert_batch_equation_1, H. simp insert_batch.
  destruct (Z_lt_dec rc MAX_RETRIES) as [?|Hn]; [|contradiction].
  now simp insert_batch.
Qed.

Lemma insert_batch_exhausted vectors rc st :
  vectorize (posts (trace st)) vectors = PostRaises ->
  MAX_RETRIES <= rc ->
  insert_batch vectorize vectors rc st =
    (false, mark_failed vectors (log (EvPost vectors) st)).
Proof.
  intros H Hge. rewrite insert_batch_equation_1, H. simp insert_batch.
  destruct (Z_lt_dec rc MAX_RETRIES) as [?|Hn]; [lia|].
  now simp insert_batch.
Qed.

(** Every call makes at least one attempt and at most as many as the
    remaining retry budget allows. *)
Lemma insert_batch_attempts vectors rc st :
  let st' := snd (insert_batch vectorize vectors rc st) in
  (posts (trace st) < posts (trace st') /\
   posts (trace st') <= posts (trace st) + Z.to_nat (Z.max 1 (MAX_RETRIES + 1 - rc)))%nat.
Proof.
  funelim (insert_batch vectorize vectors rc st); cbn zeta in *.
  - simpl. rewrite posts_snoc_post. lia.
  - simpl. rewrite posts_snoc_post. lia.
  - match goal with IH : (_ < _)%nat /\ _ |- _ => destruct IH as [IH1 IH2] end.
    simpl in IH1, IH2. rewrite posts_snoc_sleep, posts_snoc_post in IH1, IH2.
    split; [lia|].
    eapply Nat.le_trans; [exact IH2|]. lia.
  - simpl. rewrite posts_snoc_post. lia.
Qed.

(** When the index raises on every attempt, the call started with
    [retry_count] spends the whole remaining budget. *)
Lemma insert_batch_all_raise vectors (n : nat) : forall rc st,
  0 <= rc -> rc <= MAX_RETRIES -> n = Z.to_nat (MAX_RETRIES - rc) ->
  (forall k, (k <= n)%nat ->
     vectorize (posts (trace st) + k) vectors = PostRaises) ->
  insert_batch vectorize vectors rc st =
    (false,
     {| inserted_count := inserted_count st;
        failed_ids := failed_ids st ++ map vec_id vectors;
        trace := trace st ++ retry_trace vectors n |}).
Proof.
  induction n as [|n IH]; intros rc st H0 Hle Hn Hall.
  - rewrite insert_batch_exhausted; [reflexivity| |lia].
    specialize (Hall 0%nat). rewrite Nat.add_0_r in Hall. apply Hall. lia.
  - rewrite insert_batch_retry; [| |lia].
    + rewrite (IH (rc + 1)); [| lia | lia | lia |].
      * simpl. unfold retry_trace. simpl.
        rewrite <- !app_assoc. reflexivity.
      * intros k Hk. simpl.
        rewrite posts_snoc_sleep, posts_snoc_post.
        replace (S (posts (trace st)) + k)%nat
          with (posts (trace st) + S k)%nat by lia.
        apply Hall. lia.
    + specialize (Hall 0%nat). rewrite Nat.add_0_r in Hall. apply Hall. lia.
Qed.

(** C1 (amended).  One call of [insert_batch] with
    [retry_count < MAX_RETRIES] makes one POST and then: when the POST
    raised (transport or HTTP failure), sleeps the constant [RETRY_DELAY]
    and calls itself on the same batch with [retry_count + 1]; when the
    index answered [success=false], returns [False] at once, with no sleep
    and no retry; when the index answered success, adds the batch size to
    [inserted_count] and returns [True]. *)
Theorem insert_batch_retries_exceptions_only vectors rc st :
  rc < MAX_RETRIES ->
  insert_batch vectorize vectors rc st =
    match vectorize (posts (trace st)) vectors with
    | PostRaises =>
        insert_batch vectorize vectors (rc + 1)
          (log (EvSleep RETRY_DELAY) (log (EvPost vectors) st))
    | PostResult false => (false, log (EvPost vectors) st)
    | PostResult true =>
        (true, add_inserted (Z.of_nat (length vectors)) (log (EvPost vectors) st))
    end.
Proof.
  intros Hlt.
  destruct (vectorize (posts (trace st)) vectors) as [|[|]] eqn:E.
  - now apply insert_batch_retry.
  - now apply insert_batch_accepted.
  - now apply insert_batch_rejected.
Qed.

(** C2 (amended).  A batch whose every attempt raises, submitted with
    [retry_count = 0], is attempted [MAX_RETRIES + 1] times with
    [RETRY_DELAY] between consecutive attempts; then the call returns
    [False], the ids of the batch are appended to [failed_ids] in batch
    order and [inserted_count] is unchanged. *)
Theorem insert_batch_exhausts_retries vectors st :
  (forall k, (k <= Z.to_nat MAX_RETRIES)%nat ->
     vectorize (posts (trace st) + k) vectors = PostRaises) ->
  insert_batch vectorize vectors 0 st =
    (false,
     {| inserted_count := inserted_count st;
        failed_ids := failed_ids st ++ map vec_id vectors;
        trace := trace st ++ retry_trace vectors (Z.to_nat MAX_RETRIES) |}) /\
  posts (trace (snd (insert_batch vectorize vectors 0 st))) =
    (posts (trace st) + 1 + Z.to_nat MAX_RETRIES)%nat.
Proof.
  intros Hall.
  assert (E : insert_batch vectorize vectors 0 st =
    (false,
     {| inserted_count := inserted_count st;
        failed_ids := failed_ids st ++ map vec_id vectors;
        trace := trace st ++ retry_trace vectors (Z.to_nat MAX_RETRIES) |})).
  { apply insert_batch_all_raise; try assumption; unfold MAX_RETRIES; lia. }
  split; [exact E|].
  rewrite E. simpl. rewrite posts_app, posts_retry_trace. lia.
Qed.

(** C10.  [insert_batch] is a total function, and a call with
    [retry_count >= 0] makes at least one and at most [MAX_RETRIES + 1]
    attempts before it returns. *)
Theorem insert_batch_terminates_within_budget vectors rc st :
  0 <= rc ->
  exists r st',
    insert_batch vectorize vectors rc st = (r, st') /\
    (posts (trace st) < posts (trace st') /\
     posts (trace st') <= posts (trace st) + Z.to_nat (MAX_RETRIES + 1))%nat.
Proof.
  intros H0.
  destruct (insert_batch vectorize vectors rc st) as [r st'] eqn:E.
  exists r, st'. split; [reflexivity|].
  pose proof (insert_batch_attempts vectors rc st) as B.
  cbn zeta in B. rewrite E in B. simpl in B.
  destruct B as [B1 B2]. split; [exact B1|].
  eapply Nat.le_trans; [exact B2|]. unfold MAX_RETRIES. lia.
Qed.

End WithIndex.

Lemma insert_batch_retries_exceptions_only_witness :
  0 < MAX_RETRIES /\
  insert_batch index_down batch0 0 init =
    insert_batch index_down batch0 (0 + 1)
      (log (EvSleep RETRY_DELAY) (log (EvPost batch0) init)).
Proof.
  split; [reflexivity|].
  apply (insert_batch_retries_exceptions_only index_down batch0 0 init).
  reflexivity.
Defined.

(** C1, counterexample.  The index answers [{"success": false}] and
    [retry_count = 0 < MAX_RETRIES]: the call returns [False] after a
    single POST, without sleeping and without the self-call that the
    claim describes. *)
Lemma insert_batch_success_false_not_retried :
  index_rejects (posts (trace init)) batch0 = PostResult false /\
  0 < MAX_RETRIES /\
  insert_batch index_rejects batch0 0 init =
    (false, {| inserted_count := 0; failed_ids := [];
               trace := [EvPost batch0] |}) /\
  insert_batch index_rejects batch0 0 init <>
    insert_batch index_rejects batch0 (0 + 1)
      (log (EvSleep RETRY_DELAY) (log (EvPost batch0) init)).
Proof.
  repeat split.
  intros H. vm_compute in H. discriminate H.
Qed.

Lemma insert_batch_exhausts_retries_witness :
  insert_batch index_down batch0 0 init =
    (false,
     {| inserted_count := 0;
        failed_ids := ["L01"; "L02"];
        trace := [EvPost batch0; EvSleep 5; EvPost batch0; EvSleep 5;
                  EvPost batch0; EvSleep 5; EvPost batch0] |}) /\
  posts (trace (snd (insert_batch index_down batch0 0 init))) = 4%nat.
Proof.
  apply (insert_batch_exhausts_retries index_down batch0 init).
  intros k _. reflexivity.
Defined.

(** C2, counterexample.  The index answers [{"success": false}] on every
    attempt: the batch fails, yet it is attempted once (no retry) and none
    of its ids reaches [failed_ids]. *)
Lemma rejected_batch_neither_retried_nor_marked :
  (forall n, index_rejects n batch0 = PostResult false) /\
  fst (insert_batch index_rejects batch0 0 init) = false /\
  posts (trace (snd (insert_batch index_rejects batch0 0 init))) = 1%nat /\
  failed_ids (snd (insert_batch index_rejects batch0 0 init)) = [] /\
  inserted_count (snd (insert_batch index_rejects batch0 0 init)) = 0.
Proof.
  repeat split.
Qed.

Lemma insert_batch_terminates_within_budget_witness :
  0 <= 0 /\
  exists r st',
    insert_batch index_down batch0 0 init = (r, st') /\
    (posts (trace init) < posts (trace st') /\
     posts (trace st') <= posts (trace init) + Z.to_nat (MAX_RETRIES + 1))%nat.
Proof.
  split; [lia|].
  apply (insert_batch_terminates_within_budget index_down batch0 0 init).
  lia.
Defined.

End InsertFacts.

(** ** Properties of the embedding generator *)

Module EmbedFacts.

Import Embed EmbedScenarios.

Lemma requests_snoc_embed t s : requests (t ++ [EvEmbed s]) = S (requests t).
Proof.
  unfold requests. rewrite List.filter_app, length_app. simpl. lia.
Qed.

Lemma requests_snoc_sleep t q : requests (t ++ [EvSleep q]) = requests t.
Proof.
  unfold requests. rewrite List.filter_app, length_app. simpl. lia.
Qed.

Lemma contains_true c k : contains c k = true <-> is_Some (c !! k).
Proof.
  unfold contains. destruct (c !! k); split; intros H; try reflexivity.
  - now eexists.
  - discriminate.
  - now destruct H.
Qed.

Lemma contains_false c k : contains c k = false <-> c !! k = None.
Proof.
  unfold contains. destruct (c !! k); split; intros H;
    try reflexivity; discriminate.
Qed.

(** The canonical text of a lesson that has its three required keys. *)
Lemma create_lesson_text_ok l t c v :
  title l = Some t -> tacticalConcept l = Some c ->
  historicalValidator l = Some v ->
  create_lesson_text l =
    Ok (py_str t +:+ " | " +:+ py_str c +:+ " | " +:+ py_str v +:+ " | " +:+
        "Phase: " +:+ py_str (default (PStr "UNKNOWN") (phase l))).
Proof.
  intros Ht Hc Hv. unfold create_lesson_text. now rewrite Ht, Hc, Hv.
Qed.

(** A lesson whose text can be built has a title and a concept. *)
Lemma create_lesson_text_inv l txt :
  create_lesson_text l = Ok txt ->
  is_Some (title l) /\ is_Some (tacticalConcept l).
Proof.
  unfold create_lesson_text.
  destruct (title l), (tacticalConcept l); simpl; try discriminate.
  intros _. split; now eexists.
Qed.

(** A flush touches neither the in-memory cache nor the trace, and leaves
    the document of the in-memory cache in the cache file. *)
Lemma save_cache_spec st :
  _save_cache st =
    (Ok tt,
     {| embeddings_cache := embeddings_cache st;
        disk := {| curriculum_json := curriculum_json (disk st);
                   embeddings_dir := true;
                   lesson_vectors_json := Some (Document (embeddings_cache st)) |};
        trace := trace st |}).
Proof. reflexivity. Qed.

Section WithService.

Variable workers_ai : nat -> string -> embed_outcome.

(** [generate_embedding] always returns: one request, never an
    exception. *)
Lemma generate_embedding_spec txt st :
  generate_embedding workers_ai txt st =
    (Ok match workers_ai (requests (trace st)) txt with
        | EmbedData v => Some v
        | _ => None
        end,
     {| embeddings_cache := embeddings_cache st;
        disk := disk st;
        trace := trace st ++ [EvEmbed txt] |}).
Proof.
  unfold generate_embedding.
  destruct (workers_ai (requests (trace st)) txt); reflexivity.
Qed.

(** The cache-hit path of one iteration: nothing but the counter moves. *)
Lemma embed_lesson_cached i l c st k :
  id l = Some k -> contains (embeddings_cache st) k = true ->
  embed_lesson workers_ai false i l c st = (Ok (incr_skipped c), st).
Proof.
  intros Hid Hc. unfold embed_lesson, bind, lift. rewrite Hid. simpl.
  now rewrite Hc.
Qed.

(** Case analysis of the whole body of one iteration. *)
Ltac iteration_cases l i st txt :=
  unfold embed_lesson, bind, lift, when, put, set_cache, log, ret, truthy;
  simpl;
  rewrite ?generate_embedding_spec; simpl;
  destruct (workers_ai (requests (trace st)) txt) as [ | | [|x v]]; simpl;
  destruct (title l); simpl;
  destruct (tacticalConcept l); simpl;
  destruct (i mod BATCH_SIZE =? 0); simpl;
  destruct (i mod 20 =? 0); simpl.


(** The complete effect of an iteration that is not a cache hit and whose
    text can be built: the result of the request decides between a cache
    write and a failure; the pause and the periodic flush depend on the
    position only. *)
Lemma embed_lesson_processed force_regen i l c st k txt t q :
  id l = Some k ->
  contains (embeddings_cache st) k && negb force_regen = false ->
  create_lesson_text l = Ok txt ->
  title l = Some t -> tacticalConcept l = Some q ->
  embed_lesson workers_ai force_regen i l c st =
    let embedding :=
      match workers_ai (requests (trace st)) txt with
      | EmbedData v => Some v
      | _ => None
      end in
    let cache' :=
      if truthy embedding then
        <[k := {| vector := default [] embedding;
                  text := txt;
                  entry_metadata :=
                    {| md_title := t;
                       md_phase := default PNone (phase l);
                       md_module_id := default PNone (moduleId l);
                       md_concept := q |} |}]> (embeddings_cache st)
      else embeddings_cache st in
    (Ok (if truthy embedding then incr_embedded c else incr_failed c),
     {| embeddings_cache := cache';
        disk :=
          if i mod 20 =? 0 then
            {| curriculum_json := curriculum_json (disk st);
               embeddings_dir := true;
               lesson_vectors_json := Some (Document cache') |}
          else disk st;
        trace :=
          trace st ++
            EvEmbed txt ::
            (if i mod BATCH_SIZE =? 0 then [EvSleep rate_limit_pause] else []) |}).
Proof.
  intros Hid Hskip Htxt Ht Hq.
  unfold embed_lesson, bind, lift. rewrite Hid. simpl.
  rewrite Hskip, Htxt, Ht, Hq.
  iteration_cases l i st txt; rewrite <- ?app_assoc; reflexivity.
Qed.

(** An iteration that raises leaves the state as it found it. *)
Lemma embed_lesson_raise_state force_regen i l c st e st' :
  embed_lesson workers_ai force_regen i l c st = (Raise e, st') -> st' = st.
Proof.
  destruct (id l) as [k|] eqn:Hid.
  - destruct (contains (embeddings_cache st) k && negb force_regen) eqn:Hskip.
    + unfold embed_lesson, bind, lift. rewrite Hid. simpl. rewrite Hskip.
      discriminate.
    + destruct (create_lesson_text l) as [txt|e'] eqn:Htxt.
      * destruct (create_lesson_text_inv _ _ Htxt) as [[t Ht] [q Hq]].
        rewrite (embed_lesson_processed _ _ _ _ _ _ _ _ _ Hid Hskip Htxt Ht Hq).
        discriminate.
      * unfold embed_lesson, bind, lift. rewrite Hid. simpl.
        rewrite Hskip, Htxt. intros H. now inversion H.
  - unfold embed_lesson, bind, lift. rewrite Hid. simpl.
    intros H. now inversion H.
Qed.

(** Without forced regeneration, one iteration keeps every entry the
    cache already has, and makes a request only for a lesson that is not
    in the cache. *)
Lemma embed_lesson_keeps_entries i l c st :
  (forall k e, embeddings_cache st !! k = Some e ->
     embeddings_cache (snd (embed_lesson workers_ai false i l c st)) !! k = Some e) /\
  (requests (trace (snd (embed_lesson workers_ai false i l c st))) <=
     requests (trace st) + (if uncached (embeddings_cache st) l then 1 else 0))%nat.
Proof.
  unfold uncached.
  destruct (id l) as [k|] eqn:Hid.
  - destruct (contains (embeddings_cache st) k) eqn:Hc.
    + rewrite (embed_lesson_cached _ _ _ _ _ Hid Hc). simpl. split; [auto|lia].
    + destruct (create_lesson_text l) as [txt|e'] eqn:Htxt.
      * destruct (create_lesson_text_inv _ _ Htxt) as [[t Ht] [q Hq]].
        assert (Hskip : contains (embeddings_cache st) k && negb false = false)
          by now rewrite Hc.
        rewrite (embed_lesson_processed _ _ _ _ _ _ _ _ _ Hid Hskip Htxt Ht Hq).
        cbn zeta. simpl. split.
        -- intros k' e He.
           destruct (truthy _); [|exact He].
           rewrite lookup_insert_ne; [exact He|].
           intros ->. apply contains_false in Hc. congruence.
        -- destruct (i mod BATCH_SIZE =? 0).
           ++ change (trace st ++ [EvEmbed txt; EvSleep rate_limit_pause])
                with (trace st ++ [EvEmbed txt] ++ [EvSleep rate_limit_pause]).
              rewrite app_assoc, requests_snoc_sleep, requests_snoc_embed. lia.
           ++ rewrite requests_snoc_embed. lia.
      * unfold embed_lesson, bind, lift. rewrite Hid. simpl.
        rewrite Hc, Htxt. simpl. split; [auto|lia].
  - unfold embed_lesson, bind, lift. rewrite Hid. simpl. split; [auto|lia].
Qed.

Lemma uncached_mono (c c' : gmap string entry) l :
  (forall k e, c !! k = Some e -> c' !! k = Some e) ->
  uncached c' l = true -> uncached c l = true.
Proof.
  intros Hsub. unfold uncached. destruct (id l) as [k|]; [|auto].
  unfold contains. destruct (c !! k) as [e|] eqn:E; [|auto].
  now rewrite (Hsub _ _ E).
Qed.

Lemma filter_length_mono {A} (P Q : A -> bool) (l : list A) :
  (forall x, P x = true -> Q x = true) ->
  (length (List.filter P l) <= length (List.filter Q l))%nat.
Proof.
  intros HPQ. induction l as [|x l IH]; simpl; [lia|].
  destruct (P x) eqn:EP.
  - rewrite (HPQ _ EP). simpl. lia.
  - destruct (Q x); simpl; lia.
Qed.

(** The two facts of [embed_lesson_keeps_entries], for the whole loop. *)
Lemma embed_from_keeps_entries lessons : forall i c st,
  (forall k e, embeddings_cache st !! k = Some e ->
     embeddings_cache (snd (embed_from workers_ai false i lessons c st)) !! k
       = Some e) /\
  (requests (trace (snd (embed_from workers_ai false i lessons c st))) <=
     requests (trace st) +
     length (List.filter (uncached (embeddings_cache st)) lessons))%nat.
Proof.
  induction lessons as [|l rest IH]; intros i c st.
  - simpl. split; [auto|lia].
  - destruct (embed_lesson_keeps_entries i l c st) as [K1 K2].
    simpl. unfold bind.
    destruct (embed_lesson workers_ai false i l c st) as [[c1|e] st1] eqn:E;
      simpl in K1, K2.
    + destruct (IH (i + 1) c1 st1) as [I1 I2]. split.
      * intros k e He. apply I1, K1, He.
      * pose proof (filter_length_mono
                      (uncached (embeddings_cache st1))
                      (uncached (embeddings_cache st)) rest
                      (fun x => uncached_mono _ _ x K1)) as F.
        destruct (uncached (embeddings_cache st) l); simpl; lia.
    + simpl. split; [exact K1|].
      destruct (uncached (embeddings_cache st) l); simpl; lia.
Qed.

(** When every lesson is a cache hit the loop only counts. *)
Lemma embed_from_all_cached lessons : forall i c st,
  (forall l, In l lessons -> uncached (embeddings_cache st) l = false) ->
  embed_from workers_ai false i lessons c st =
    (Ok {| embedded := embedded c;
           skipped := skipped c + Z.of_nat (length lessons);
           failed := failed c |}, st).
Proof.
  induction lessons as [|l rest IH]; intros i c st Hall.
  - simpl. unfold ret. destruct c. simpl. now rewrite Z.add_0_r.
  - assert (Hl : uncached (embeddings_cache st) l = false)
      by (apply Hall; now left).
    unfold uncached in Hl. destruct (id l) as [k|] eqn:Hid; [|discriminate].
    apply negb_false_iff in Hl.
    simpl embed_from. unfold bind.
    rewrite (embed_lesson_cached _ _ _ _ _ Hid Hl).
    rewrite IH by (intros l' Hl'; apply Hall; now right).
    simpl. do 2 f_equal. f_equal. lia.
Qed.

(** [__init__] on each state of the cache file. *)
Lemma init_spec st :
  __init__ st =
    match lesson_vectors_json (disk st) with
    | None =>
        (Ok tt, {| embeddings_cache := ∅; disk := disk st; trace := trace st |})
    | Some Unparseable =>
        (Raise JSONDecodeError,
         {| embeddings_cache := ∅; disk := disk st; trace := trace st |})
    | Some (Document m) =>
        (Ok tt, {| embeddings_cache := m; disk := disk st; trace := trace st |})
    end.
Proof.
  unfold __init__, bind, set_cache, _load_cache. simpl.
  destruct (lesson_vectors_json (disk st)) as [[|m]|]; reflexivity.
Qed.

Lemma pauses_app t u : pauses (t ++ u) = (pauses t + pauses u)%nat.
Proof.
  unfold pauses. now rewrite List.filter_app, length_app.
Qed.

Lemma multiples_step i :
  i / BATCH_SIZE - (i - 1) / BATCH_SIZE = if i mod BATCH_SIZE =? 0 then 1 else 0.
Proof.
  unfold BATCH_SIZE.
  destruct (Z.eqb_spec (i mod 10) 0) as [E|E];
    Z.div_mod_to_equations; lia.
Qed.

(** With forced regeneration no record is skipped, and the loop started
    at position [i] pauses once for every multiple of [BATCH_SIZE] among
    the positions it visits. *)
Lemma embed_from_forced_pauses lessons : forall i c st,
  Forall (fun l => complete l = true) lessons ->
  exists c',
    fst (embed_from workers_ai true i lessons c st) = Ok c' /\
    Z.of_nat (pauses (trace (snd (embed_from workers_ai true i lessons c st)))) =
      Z.of_nat (pauses (trace st)) +
      ((i + Z.of_nat (length lessons) - 1) / BATCH_SIZE - (i - 1) / BATCH_SIZE).
Proof.
  induction lessons as [|l rest IH]; intros i c st Hall.
  - exists c. split; [reflexivity|].
    cbn [embed_from ret snd length Z.of_nat].
    rewrite Z.add_0_r, Z.sub_diag. lia.
  - inversion Hall as [|? ? Hl Hrest]; subst.
    unfold complete in Hl.
    destruct (id l) as [k|] eqn:Hid; [|discriminate].
    destruct (title l) as [t|] eqn:Ht; [|discriminate].
    destruct (tacticalConcept l) as [q|] eqn:Hq; [|discriminate].
    destruct (historicalValidator l) as [v|] eqn:Hv; [|discriminate].
    pose proof (create_lesson_text_ok _ _ _ _ Ht Hq Hv) as Htxt.
    assert (Hskip : contains (embeddings_cache st) k && negb true = false)
      by apply andb_false_r.
    simpl embed_from. unfold bind.
    rewrite (embed_lesson_processed _ _ _ _ _ _ _ _ _ Hid Hskip Htxt Ht Hq).
    cbv beta iota zeta.
    match goal with
    | |- context [embed_from workers_ai true (i + 1) rest ?c1 ?st1] =>
        destruct (IH (i + 1) c1 st1 Hrest) as [c' [R P]]
    end.
    exists c'. split; [exact R|].
    rewrite P. simpl trace. rewrite pauses_app.
    pose proof (multiples_step i) as M.
    replace (i + 1 + Z.of_nat (length rest) - 1)
      with (i + Z.of_nat (length (l :: rest)) - 1) by (simpl length; lia).
    replace (i + 1 - 1) with i by lia.
    destruct (i mod BATCH_SIZE =? 0); unfold pauses at 2; simpl; lia.
Qed.

(** A forced run over [n] complete lessons pauses [n / BATCH_SIZE]
    times. *)
Lemma forced_run_pauses lessons st :
  Forall (fun l => complete l = true) lessons ->
  Z.of_nat (pauses (trace (snd (batch_embed_lessons workers_ai lessons true st)))) =
    Z.of_nat (pauses (trace st)) + Z.of_nat (length lessons) / BATCH_SIZE.
Proof.
  intros Hall.
  destruct (embed_from_forced_pauses lessons 1
              {| embedded := 0; skipped := 0; failed := 0 |} st Hall)
    as [c' [R P]].
  unfold batch_embed_lessons, bind.
  destruct (embed_from workers_ai true 1 lessons _ st) as [[c1|e] st1];
    simpl in R; [|discriminate].
  simpl in P |- *. rewrite P.
  replace (1 + Z.of_nat (length lessons) - 1) with (Z.of_nat (length lessons))
    by lia.
  change ((1 - 1) / BATCH_SIZE) with 0. lia.
Qed.

(** C3 (amended).  Constructing the generator with a non-empty lesson
    list to process: if the cache file is absent the cache is the empty
    mapping and nothing fails; if it holds a document the cache is that
    document; if it is unparseable, [json.load] raises, nothing catches
    the exception, and the run ends with exit status 1 before any remote
    request and without touching the disk. *)
Theorem load_cache_absent_or_corrupt env d ls :
  unset (CLOUDFLARE_ACCOUNT_ID env) || unset (CLOUDFLARE_API_TOKEN env) = false ->
  curriculum_json d = Some (Document (Some ls)) ->
  list_truthy ls = true ->
  match lesson_vectors_json d with
  | None => __init__ (fresh ∅ d) = (Ok tt, fresh ∅ d)
  | Some (Document m) => __init__ (fresh ∅ d) = (Ok tt, fresh m d)
  | Some Unparseable =>
      __init__ (fresh ∅ d) = (Raise JSONDecodeError, fresh ∅ d) /\
      script workers_ai env d =
        {| exit_code := 1; final_disk := d; effects := [] |}
  end.
Proof.
  intros Henv Hcur Hls.
  pose proof (init_spec (fresh ∅ d)) as I. simpl in I.
  destruct (lesson_vectors_json d) as [[|m]|] eqn:Hc; try exact I.
  split; [exact I|].
  unfold script. rewrite Henv. unfold main. simpl. rewrite Hcur. simpl.
  rewrite Hls. simpl. unfold bind.
  change {| embeddings_cache := ∅; disk := d; trace := [] |} with (fresh ∅ d).
  now rewrite I.
Qed.

(** C4 (amended).  A flush overwrites the cache file in place: after
    creating the parent directory it opens the cache file itself for
    writing, which truncates it, and then dumps the document into it.
    A completed flush leaves the document of the in-memory cache in the
    file; between the truncation and the dump the file holds no
    snapshot at all, whatever it held before. *)
Theorem save_cache_overwrites_in_place c d :
  save_ops c = [Mkdir_parent; Open_w; Json_dump c] /\
  disk (snd (_save_cache (fresh c d))) = interrupted_save 3 c d /\
  lesson_vectors_json (interrupted_save 3 c d) = Some (Document c) /\
  lesson_vectors_json (interrupted_save 2 c d) = Some Unparseable /\
  lesson_vectors_json (interrupted_save 1 c d) = lesson_vectors_json d.
Proof. repeat split. Qed.

(** C5 (amended).  With a required environment variable unset or empty
    the script exits with status 1; with the configuration present and a
    lesson list that is missing or empty, [main] returns before the
    generator is constructed and the script exits with status 0.  In both
    cases no remote request is made and the disk is left as it was. *)
Theorem preflight_failures env d :
  (unset (CLOUDFLARE_ACCOUNT_ID env) || unset (CLOUDFLARE_API_TOKEN env) = true ->
   script workers_ai env d =
     {| exit_code := 1; final_disk := d; effects := [] |}) /\
  (unset (CLOUDFLARE_ACCOUNT_ID env) || unset (CLOUDFLARE_API_TOKEN env) = false ->
   forall ls,
     curriculum_json d = Some (Document ls) -> default [] ls = [] ->
     script workers_ai env d =
       {| exit_code := 0; final_disk := d; effects := [] |}).
Proof.
  split.
  - intros H. unfold script. now rewrite H.
  - intros H ls Hcur Hls. unfold script. rewrite H.
    unfold main. simpl. rewrite Hcur, Hls. reflexivity.
Qed.

(** C7.  For a lesson without the optional ["phase"] key (and with the
    three keys that are subscripted), [create_lesson_text] does not raise
    and returns the fields in the fixed order title, concept, validator,
    phase, separated by [" | "], with the sentinel [UNKNOWN] in the place
    of the phase.  It is a function of the lesson alone. *)
Theorem create_lesson_text_unknown_phase l t c v :
  title l = Some t -> tacticalConcept l = Some c ->
  historicalValidator l = Some v -> phase l = None ->
  create_lesson_text l =
    Ok (py_str t +:+ " | " +:+ py_str c +:+ " | " +:+ py_str v +:+
        " | Phase: UNKNOWN").
Proof.
  intros Ht Hc Hv Hp.
  rewrite (create_lesson_text_ok _ _ _ _ Ht Hc Hv), Hp. reflexivity.
Qed.

(** C8.  Without forced regeneration: the iteration for a record whose id
    is in the cache changes nothing but the [skipped] counter (no request,
    no cache write); over a whole run every entry present at the start is
    still there, identical, at the end, and the number of requests is at
    most the number of records that were not in the cache; when every
    record is in the cache the run makes no request, leaves the cache as
    it was and flushes that same mapping. *)
Theorem cached_records_untouched lessons st :
  (forall i l c k,
     id l = Some k -> contains (embeddings_cache st) k = true ->
     embed_lesson workers_ai false i l c st = (Ok (incr_skipped c), st)) /\
  (forall k e,
     embeddings_cache st !! k = Some e ->
     embeddings_cache (snd (batch_embed_lessons workers_ai lessons false st)) !! k
       = Some e) /\
  (requests (trace (snd (batch_embed_lessons workers_ai lessons false st))) <=
     requests (trace st) +
     length (List.filter (uncached (embeddings_cache st)) lessons))%nat /\
  ((forall l, In l lessons -> uncached (embeddings_cache st) l = false) ->
   batch_embed_lessons workers_ai lessons false st =
     (Ok {| embedded := 0; skipped := Z.of_nat (length lessons); failed := 0 |},
      {| embeddings_cache := embeddings_cache st;
         disk := {| curriculum_json := curriculum_json (disk st);
                    embeddings_dir := true;
                    lesson_vectors_json :=
                      Some (Document (embeddings_cache st)) |};
         trace := trace st |})).
Proof.
  split; [intros i l c k; apply embed_lesson_cached|].
  pose proof (embed_from_keeps_entries lessons 1
                {| embedded := 0; skipped := 0; failed := 0 |} st) as [K1 K2].
  unfold batch_embed_lessons, bind.
  split; [|split].
  - intros k e He. specialize (K1 k e He).
    destruct (embed_from workers_ai false 1 lessons _ st) as [[c1|x] st1];
      simpl in *; exact K1.
  - destruct (embed_from workers_ai false 1 lessons _ st) as [[c1|x] st1];
      simpl in *; exact K2.
  - intros Hall. rewrite embed_from_all_cached by exact Hall.
    rewrite save_cache_spec. reflexivity.
Qed.

End WithService.

Lemma load_cache_absent_or_corrupt_witness :
  __init__ (fresh ∅ disk_corrupt_cache) =
    (Raise JSONDecodeError, fresh ∅ disk_corrupt_cache) /\
  script service_up env_ok disk_corrupt_cache =
    {| exit_code := 1; final_disk := disk_corrupt_cache; effects := [] |}.
Proof.
  apply (load_cache_absent_or_corrupt service_up env_ok disk_corrupt_cache
           [mk_lesson "L01" 1]); reflexivity.
Defined.

(** C3, counterexample.  The cache file exists and is not JSON: loading
    raises instead of yielding the empty mapping, and the run ends with
    exit status 1 without having embedded the lesson. *)
Lemma corrupt_cache_is_fatal :
  lesson_vectors_json disk_corrupt_cache = Some Unparseable /\
  _load_cache (fresh ∅ disk_corrupt_cache) =
    (Raise JSONDecodeError, fresh ∅ disk_corrupt_cache) /\
  exit_code (script service_up env_ok disk_corrupt_cache) = 1 /\
  effects (script service_up env_ok disk_corrupt_cache) = [].
Proof. repeat split. Qed.

(** C4, counterexample.  The process stops after [open(..., 'w')] and
    before [json.dump]: the cache file holds neither the previous
    snapshot nor the new document. *)
Lemma interrupted_flush_loses_snapshot :
  lesson_vectors_json disk_with_snapshot = Some (Document cache_L10) /\
  lesson_vectors_json (interrupted_save 2 ∅ disk_with_snapshot)
    = Some Unparseable /\
  lesson_vectors_json (interrupted_save 2 ∅ disk_with_snapshot)
    <> Some (Document cache_L10) /\
  lesson_vectors_json (interrupted_save 2 ∅ disk_with_snapshot)
    <> Some (Document ∅).
Proof. repeat split; discriminate. Qed.

Lemma preflight_failures_witness :
  script service_up env_no_token disk_with_snapshot =
    {| exit_code := 1; final_disk := disk_with_snapshot; effects := [] |} /\
  script service_up env_ok disk_no_lessons =
    {| exit_code := 0; final_disk := disk_no_lessons; effects := [] |}.
Proof.
  split.
  - apply (proj1 (preflight_failures service_up env_no_token disk_with_snapshot)).
    reflexivity.
  - apply (proj2 (preflight_failures service_up env_ok disk_no_lessons)
             eq_refl (Some [])); reflexivity.
Defined.

(** C5, counterexample.  The configuration is present and the lesson list
    of the curriculum is empty: the exit status is 0. *)
Lemma empty_lessons_exit_zero :
  unset (CLOUDFLARE_ACCOUNT_ID env_ok) || unset (CLOUDFLARE_API_TOKEN env_ok)
    = false /\
  curriculum_json disk_no_lessons = Some (Document (Some [])) /\
  exit_code (script service_up env_ok disk_no_lessons) = 0.
Proof. repeat split. Qed.


Lemma create_lesson_text_unknown_phase_witness :
  create_lesson_text (no_phase "L01" 1) =
    Ok "Lesson L01 | Concept | Validator | Phase: UNKNOWN".
Proof.
  apply (create_lesson_text_unknown_phase (no_phase "L01" 1)
           (PStr "Lesson L01") (PStr "Concept") (PStr "Validator"));
    reflexivity.
Defined.

End EmbedFacts.

(** ** Properties of whole upload runs *)

Module RunFacts.

Import Insert InsertScenarios InsertRun RunScenarios.

Lemma py_range_batches n :
  py_range 0 (Z.of_nat n) BATCH_SIZE =
    map (fun k => Z.of_nat k * BATCH_SIZE) (seq 0 (batch_count n)).
Proof.
  unfold py_range, batch_count. rewrite Z.sub_0_r. reflexivity.
Qed.

Lemma py_slice_chunk {A} (l : list A) (k : nat) :
  py_slice l (Z.of_nat k * BATCH_SIZE) (Z.of_nat k * BATCH_SIZE + BATCH_SIZE) =
    take 100 (drop (k * 100) l).
Proof.
  unfold py_slice, BATCH_SIZE.
  replace (Z.to_nat (Z.of_nat k * 100 + 100 - Z.of_nat k * 100)) with 100%nat by lia.
  replace (Z.to_nat (Z.of_nat k * 100)) with (k * 100)%nat by lia.
  reflexivity.
Qed.

(** Cutting a list into consecutive slices of 100 loses nothing. *)
Lemma concat_chunks {A} (m : nat) : forall l : list A,
  (length l <= m * 100)%nat ->
  concat (map (fun k => take 100 (drop (k * 100) l)) (seq 0 m)) = l.
Proof.
  induction m as [|m IH]; intros l Hl.
  - destruct l; [reflexivity|simpl in Hl; lia].
  - cbn [seq map concat]. rewrite <- seq_shift, map_map.
    rewrite drop_0.
    transitivity (take 100 l ++ drop 100 l); [|apply take_drop].
    f_equal.
    rewrite <- (IH (drop 100 l)) by (rewrite length_drop; lia).
    f_equal. apply map_ext. intros k.
    rewrite drop_drop. f_equal.
Qed.

Lemma dict_get_key d k : In k (keys d) -> is_Some (dict_get d k).
Proof.
  induction d as [|[k' v] d IH]; simpl; [tauto|].
  intros [->|H].
  - rewrite String.eqb_refl. now eexists.
  - destruct (String.eqb k' k); [now eexists|auto].
Qed.

Lemma dict_get_item d k v :
  NoDup (keys d) -> In (k, v) d -> dict_get d k = Some v.
Proof.
  induction d as [|[k' v'] d IH]; simpl; [tauto|].
  intros Hnd [E|H].
  - inversion E; subst. now rewrite String.eqb_refl.
  - apply NoDup_cons in Hnd as [Hk' Hnd].
    destruct (String.eqb_spec k' k) as [->|Hne]; [|auto].
    exfalso. apply Hk'. apply list_elem_of_In.
    apply (in_map fst) in H. exact H.
Qed.

(** The inner loop keeps every id it is given, in order. *)
Lemma batch_vectors_ids d ids :
  (forall k, In k ids -> In k (keys d)) ->
  map vec_id (batch_vectors d ids) = ids.
Proof.
  unfold batch_vectors.
  induction ids as [|k ids IH]; intros Hin; [reflexivity|].
  cbn [omap list_omap].
  destruct (dict_get_key d k (Hin k (or_introl eq_refl))) as [v Hv].
  rewrite Hv. simpl. f_equal. apply IH. intros k' Hk'. apply Hin. now right.
Qed.

Lemma batch_vectors_items d d' :
  NoDup (keys d) -> (forall p, In p d' -> In p d) ->
  batch_vectors d (map fst d') = map (fun p => vector_of (fst p) (snd p)) d'.
Proof.
  intros Hnd. unfold batch_vectors.
  induction d' as [|[k v] d' IH]; intros Hin; [reflexivity|].
  cbn [map omap list_omap fst snd].
  rewrite (dict_get_item d k v Hnd (Hin _ (or_introl eq_refl))). simpl.
  f_equal. apply IH. intros p Hp. apply Hin. now right.
Qed.

Lemma In_take {A} (x : A) n : forall l, In x (take n l) -> In x l.
Proof.
  induction n as [|n IH]; intros [|y l]; simpl; try tauto.
  intros [->|H]; [now left|right; auto].
Qed.

Lemma In_drop {A} (x : A) n : forall l, In x (drop n l) -> In x l.
Proof.
  induction n as [|n IH]; intros [|y l]; simpl; try tauto.
  intros H. right. auto.
Qed.

(** The ids of the batch built at index [100 k]. *)
Lemma batch_at_ids d k :
  map vec_id (batch_at d (Z.of_nat k * BATCH_SIZE)) =
    take 100 (drop (k * 100) (keys d)).
Proof.
  unfold batch_at. rewrite py_slice_chunk.
  apply batch_vectors_ids. intros x Hx.
  eapply In_drop, In_take, Hx.
Qed.

Lemma batch_count_covers n : (n <= batch_count n * 100)%nat.
Proof.
  unfold batch_count, BATCH_SIZE.
  assert (Z.of_nat n <= (Z.of_nat n + 100 - 1) / 100 * 100)
    by (Z.div_mod_to_equations; lia).
  assert (0 <= (Z.of_nat n + 100 - 1) / 100)
    by (Z.div_mod_to_equations; lia).
  lia.
Qed.

Lemma batch_count_tight n k :
  (k < batch_count n)%nat -> (k * 100 < n)%nat.
Proof.
  unfold batch_count, BATCH_SIZE. intros H.
  assert (Z.of_nat k < (Z.of_nat n + 100 - 1) / 100) by lia.
  assert (Z.of_nat k * 100 < Z.of_nat n) by (Z.div_mod_to_equations; lia).
  lia.
Qed.

Lemma batches_unfold d :
  batches d =
    map (fun k => batch_at d (Z.of_nat k * BATCH_SIZE))
        (seq 0 (batch_count (length d))).
Proof.
  unfold batches, keys. rewrite length_map, py_range_batches, map_map.
  reflexivity.
Qed.

Lemma batch_at_items d k :
  NoDup (keys d) ->
  batch_at d (Z.of_nat k * BATCH_SIZE) =
    map (fun p => vector_of (fst p) (snd p)) (take 100 (drop (k * 100) d)).
Proof.
  intros Hnd. unfold batch_at. rewrite py_slice_chunk. unfold keys.
  rewrite skipn_map, firstn_map.
  apply (batch_vectors_items d _ Hnd).
  intros p Hp. eapply In_drop, In_take, Hp.
Qed.

(** X1.  [insert_all] cuts the keys of the cache, in their order, into
    consecutive batches of 100 ids, the last one holding the remainder;
    no batch is empty and, the keys being distinct, each vector goes out
    with its own id, values and metadata. *)
Theorem batches_partition d :
  map vec_id (concat (batches d)) = keys d /\
  map length (batches d) =
    map (fun k => Nat.min 100 (length d - k * 100))
        (seq 0 (batch_count (length d))) /\
  Forall (fun b => (1 <= length b <= 100)%nat) (batches d) /\
  (NoDup (keys d) ->
   concat (batches d) = map (fun p => vector_of (fst p) (snd p)) d).
Proof.
  assert (L : forall k, length (batch_at d (Z.of_nat k * BATCH_SIZE)) =
                        Nat.min 100 (length d - k * 100)).
  { intros k. rewrite <- (length_map vec_id), batch_at_ids.
    rewrite length_take, length_drop. unfold keys. now rewrite length_map. }
  rewrite batches_unfold. repeat split.
  - rewrite concat_map, map_map.
    erewrite map_ext by (intros k; apply batch_at_ids).
    apply concat_chunks. unfold keys. rewrite length_map.
    apply batch_count_covers.
  - rewrite map_map. apply map_ext. exact L.
  - apply Forall_forall. intros b Hb.
    apply list_elem_of_In, in_map_iff in Hb as [k [<- Hk]].
    apply in_seq in Hk. rewrite L.
    pose proof (batch_count_tight (length d) k). lia.
  - intros Hnd.
    erewrite map_ext by (intros k; apply (batch_at_items d k Hnd)).
    rewrite <- (map_map (fun k => take 100 (drop (k * 100) d))
                        (map (fun p => vector_of (fst p) (snd p)))).
    rewrite <- concat_map. f_equal.
    apply concat_chunks, batch_count_covers.
Qed.

Lemma retry_trace_S vectors n :
  retry_trace vectors (S n) =
    [EvPost vectors; EvSleep RETRY_DELAY] ++ retry_trace vectors n.
Proof. reflexivity. Qed.

Section WithIndex.

Variable vectorize : nat -> list vector_entry -> post_outcome.

(** Everything one call of [insert_batch] does, in one statement: it makes
    [n + 1] attempts on the same batch, [n] of which raised and were
    followed by the retry delay, and the answer to the last attempt
    decides the bookkeeping. *)
Lemma insert_batch_summary vectors rc st :
  exists n,
    (n <= Z.to_nat (MAX_RETRIES - rc))%nat /\
    (forall j, (j < n)%nat ->
       vectorize (posts (trace st) + j) vectors = PostRaises) /\
    trace (snd (insert_batch vectorize vectors rc st)) =
      trace st ++ retry_trace vectors n /\
    let r := fst (insert_batch vectorize vectors rc st) in
    let st' := snd (insert_batch vectorize vectors rc st) in
    match vectorize (posts (trace st) + n) vectors with
    | PostResult true =>
        r = true /\
        inserted_count st' = inserted_count st + Z.of_nat (length vectors) /\
        failed_ids st' = failed_ids st
    | PostResult false =>
        r = false /\
        inserted_count st' = inserted_count st /\
        failed_ids st' = failed_ids st
    | PostRaises =>
        r = false /\
        inserted_count st' = inserted_count st /\
        failed_ids st' = failed_ids st ++ map vec_id vectors /\
        n = Z.to_nat (MAX_RETRIES - rc)
    end.
Proof.
  funelim (insert_batch vectorize vectors rc st).
  - exists 0%nat. rewrite Nat.add_0_r, Heq. simpl.
    repeat split; try lia.
  - exists 0%nat. rewrite Nat.add_0_r, Heq. simpl.
    repeat split; try lia.
  - match goal with IH : exists _, _ |- _ =>
      destruct IH as [n [Hn [Hraise [Htr Hout]]]] end.
    simpl in Hraise, Htr, Hout.
    rewrite InsertFacts.posts_snoc_sleep, InsertFacts.posts_snoc_post
      in Hraise, Hout.
    exists (S n). split; [lia|]. split; [|split].
    + intros [|j] Hj.
      * now rewrite Nat.add_0_r.
      * replace (posts (trace st) + S j)%nat
          with (S (posts (trace st)) + j)%nat by lia.
        apply Hraise. lia.
    + rewrite Htr, retry_trace_S, <- !app_assoc. reflexivity.
    + replace (posts (trace st) + S n)%nat
        with (S (posts (trace st)) + n)%nat by lia.
      cbn zeta in *.
      destruct (vectorize (S (posts (trace st)) + n) vectors) as [|[|]];
        simpl in *; intuition lia.
  - exists 0%nat. rewrite Nat.add_0_r.
    match goal with H : vectorize _ _ = PostRaises |- _ => rewrite H end.
    simpl. repeat split; try lia.
Qed.

End WithIndex.

(** The loop of [insert_all] over the indices is the run over the
    batches: the test [i + BATCH_SIZE < total] holds exactly when another
    batch follows. *)
Lemma insert_all_batches vectorize d st :
  insert_all vectorize d st = run_batches vectorize (batches d) st.
Proof.
  unfold insert_all. rewrite batches_unfold.
  unfold keys at 1. rewrite length_map, py_range_batches.
  remember (batch_count (length d)) as total eqn:Htotal.
  assert (G : forall m a st0, (a + m = total)%nat ->
    fold_left (insert_step vectorize d)
      (map (fun k => Z.of_nat k * BATCH_SIZE) (seq a m)) st0 =
    run_batches vectorize
      (map (fun k => batch_at d (Z.of_nat k * BATCH_SIZE)) (seq a m)) st0).
  { induction m as [|m IH]; intros a st0 Ham; [reflexivity|].
    cbn [seq map fold_left run_batches].
    rewrite <- (IH (S a)) by lia. f_equal.
    unfold insert_step. unfold keys. rewrite length_map.
    destruct m as [|m].
    - cbn [seq map list_truthy].
      pose proof (batch_count_covers (length d)) as C.
      rewrite <- Htotal, <- Ham in C.
      destruct (Z.ltb_spec (Z.of_nat a * BATCH_SIZE + BATCH_SIZE)
                           (Z.of_nat (length d))) as [L|L];
        [unfold BATCH_SIZE in L; lia|reflexivity].
    - cbn [seq map list_truthy].
      pose proof (batch_count_tight (length d) (S a)) as C.
      rewrite <- Htotal in C. specialize (C ltac:(lia)).
      destruct (Z.ltb_spec (Z.of_nat a * BATCH_SIZE + BATCH_SIZE)
                           (Z.of_nat (length d))) as [L|L];
        [reflexivity|unfold BATCH_SIZE in L; lia]. }
  apply G. lia.
Qed.

Lemma batch_pauses_app t u :
  batch_pauses (t ++ u) = (batch_pauses t + batch_pauses u)%nat.
Proof.
  unfold batch_pauses. now rewrite List.filter_app, length_app.
Qed.

Lemma batch_pauses_retry_trace vectors n :
  batch_pauses (retry_trace vectors n) = 0%nat.
Proof.
  induction n as [|n IH]; [reflexivity|].
  rewrite retry_trace_S, batch_pauses_app, IH. reflexivity.
Qed.

Lemma In_retry_trace vectors n : In (EvPost vectors) (retry_trace vectors n).
Proof.
  unfold retry_trace. apply in_or_app. right. now left.
Qed.

Section Runs.

Variable vectorize : nat -> list vector_entry -> post_outcome.

(** X2.  The result of [insert_batch] tells what happened to the
    counters: [True] means the batch size was added to [inserted_count]
    and [failed_ids] was left alone; [False] means [inserted_count] was
    left alone and [failed_ids] either was left alone or received all the
    ids of the batch.  A batch is never both counted and marked failed. *)
Theorem insert_batch_accounts vectors rc st :
  let r := fst (insert_batch vectorize vectors rc st) in
  let st' := snd (insert_batch vectorize vectors rc st) in
  (r = true ->
   inserted_count st' = inserted_count st + Z.of_nat (length vectors) /\
   failed_ids st' = failed_ids st) /\
  (r = false ->
   inserted_count st' = inserted_count st /\
   (failed_ids st' = failed_ids st \/
    failed_ids st' = failed_ids st ++ map vec_id vectors)).
Proof.
  destruct (insert_batch_summary vectorize vectors rc st)
    as [n [_ [_ [_ Hout]]]].
  cbn zeta in *.
  destruct (vectorize (posts (trace st) + n) vectors) as [|[|]];
    destruct Hout as [Hr [Hi Hf]]; rewrite Hr; split; intros E;
    try discriminate; intuition.
Qed.

(** X3.  Whatever the index answers, one call of [insert_batch] appends to
    the trace a POST of the batch, then, at most [MAX_RETRIES - retry_count]
    times, a sleep of [RETRY_DELAY] and a POST of the same batch.  A call
    entered with [retry_count >= MAX_RETRIES] makes a single POST. *)
Theorem insert_batch_trace_shape vectors rc st :
  exists n,
    (n <= Z.to_nat (MAX_RETRIES - rc))%nat /\
    trace (snd (insert_batch vectorize vectors rc st)) =
      trace st ++ retry_trace vectors n.
Proof.
  destruct (insert_batch_summary vectorize vectors rc st)
    as [n [Hn [_ [Htr _]]]].
  exists n. split; assumption.
Qed.

(** X4.  If the first [k] attempts raise and the next one is accepted,
    with [k] within the retry budget, the call returns [True] after [k]
    waits, counts the batch and marks nothing failed. *)
Theorem insert_batch_recovers vectors rc st k :
  Z.of_nat k <= MAX_RETRIES - rc ->
  (forall j, (j < k)%nat ->
     vectorize (posts (trace st) + j) vectors = PostRaises) ->
  vectorize (posts (trace st) + k) vectors = PostResult true ->
  insert_batch vectorize vectors rc st =
    (true,
     {| inserted_count := inserted_count st + Z.of_nat (length vectors);
        failed_ids := failed_ids st;
        trace := trace st ++ retry_trace vectors k |}).
Proof.
  intros Hk Hraise Hok.
  destruct (insert_batch_summary vectorize vectors rc st)
    as [n [Hn [Hr [Htr Hout]]]].
  cbn zeta in Hout.
  assert (n = k) as ->.
  { destruct (Nat.lt_trichotomy n k) as [L|[E|L]]; [|exact E|].
    - rewrite (Hraise n L) in Hout. lia.
    - rewrite (Hr k L) in Hok. discriminate. }
  rewrite Hok in Hout. destruct Hout as [R [I F]].
  destruct (insert_batch vectorize vectors rc st) as [r [ic fi tr]].
  simpl in *. now subst.
Qed.

End Runs.

Lemma insert_batch_recovers_witness :
  insert_batch index_recovers batch0 0 init =
    (true,
     {| inserted_count := 2;
        failed_ids := [];
        trace := [EvPost batch0; EvSleep 5; EvPost batch0; EvSleep 5;
                  EvPost batch0] |}).
Proof.
  apply (insert_batch_recovers index_recovers batch0 0 init 2).
  - vm_compute. discriminate.
  - intros [|[|j]] Hj; [reflexivity|reflexivity|lia].
  - reflexivity.
Defined.

Lemma total_size_cons b bs :
  total_size (b :: bs) = (length b + total_size bs)%nat.
Proof. unfold total_size. simpl. now rewrite length_app. Qed.

Section WholeRuns.

Variable vectorize : nat -> list vector_entry -> post_outcome.

(** One batch of a run, as the run sees it. *)
Lemma batch_step vectors st :
  exists n fs,
    (n <= 3)%nat /\
    trace (snd (insert_batch vectorize vectors 0 st)) =
      trace st ++ retry_trace vectors n /\
    failed_ids (snd (insert_batch vectorize vectors 0 st)) =
      failed_ids st ++ fs /\
    (fs = [] \/ fs = map vec_id vectors) /\
    inserted_count st <= inserted_count (snd (insert_batch vectorize vectors 0 st)) /\
    inserted_count (snd (insert_batch vectorize vectors 0 st))
      - inserted_count st + Z.of_nat (length fs) <= Z.of_nat (length vectors) /\
    (vectorize (posts (trace st) + n) vectors <> PostResult false ->
     inserted_count (snd (insert_batch vectorize vectors 0 st))
       - inserted_count st + Z.of_nat (length fs) = Z.of_nat (length vectors)).
Proof.
  destruct (insert_batch_summary vectorize vectors 0 st)
    as [n [Hn [_ [Htr Hout]]]].
  cbn zeta in Hout. change (Z.to_nat (MAX_RETRIES - 0)) with 3%nat in *.
  destruct (vectorize (posts (trace st) + n) vectors) as [|[|]] eqn:E;
    destruct Hout as [_ [Hi Hf]].
  - destruct Hf as [Hf _].
    exists n, (map vec_id vectors). rewrite length_map.
    repeat split; auto; try lia.
  - exists n, []. rewrite app_nil_r. simpl.
    repeat split; auto; try lia.
  - exists n, []. rewrite app_nil_r. simpl.
    repeat split; auto; try lia. congruence.
Qed.

Lemma run_batches_cons b rest st :
  run_batches vectorize (b :: rest) st =
    run_batches vectorize rest
      (if list_truthy rest
       then log (EvSleep 1) (snd (insert_batch vectorize b 0 st))
       else snd (insert_batch vectorize b 0 st)).
Proof. reflexivity. Qed.

(** The counters over a run of batches. *)
Lemma run_batches_accounts bs : forall st,
  inserted_count st <= inserted_count (run_batches vectorize bs st) /\
  exists fs,
    failed_ids (run_batches vectorize bs st) = failed_ids st ++ fs /\
    fs `sublist_of` concat (map (map vec_id) bs) /\
    inserted_count (run_batches vectorize bs st) - inserted_count st
      + Z.of_nat (length fs) <= Z.of_nat (total_size bs) /\
    ((forall n v, vectorize n v <> PostResult false) ->
     inserted_count (run_batches vectorize bs st) - inserted_count st
       + Z.of_nat (length fs) = Z.of_nat (total_size bs)).
Proof.
  induction bs as [|b rest IH]; intros st.
  - simpl. split; [lia|]. exists []. rewrite app_nil_r.
    repeat split; try reflexivity; unfold total_size; simpl; lia.
  - rewrite run_batches_cons.
    destruct (batch_step b st) as [n [fs1 [_ [_ [Hf [Hfs [Hi [Hle Heq]]]]]]]].
    set (st1 := snd (insert_batch vectorize b 0 st)) in *.
    set (st2 := if list_truthy rest then log (EvSleep 1) st1 else st1).
    assert (Hi2 : inserted_count st2 = inserted_count st1)
      by (unfold st2; destruct (list_truthy rest); reflexivity).
    assert (Hf2 : failed_ids st2 = failed_ids st1)
      by (unfold st2; destruct (list_truthy rest); reflexivity).
    destruct (IH st2) as [Hmono [fs2 [Hf' [Hsub [Hle' Heq']]]]].
    rewrite Hi2 in *. rewrite Hf2, Hf in Hf'.
    split; [lia|].
    exists (fs1 ++ fs2). rewrite total_size_cons, length_app.
    split; [now rewrite app_assoc|]. split; [|split].
    + cbn [map concat]. apply sublist_app; [|exact Hsub].
      destruct Hfs as [->| ->]; [apply sublist_nil_l|reflexivity].
    + lia.
    + intros Hno. specialize (Heq (Hno _ _)). specialize (Heq' Hno). lia.
Qed.

(** The trace of a run of batches. *)
Lemma run_batches_trace bs : forall st,
  exists t,
    trace (run_batches vectorize bs st) = trace st ++ t /\
    Forall (fun b => In (EvPost b) t) bs /\
    batch_pauses t = (length bs - 1)%nat /\
    (length bs <= posts t <= 4 * length bs)%nat.
Proof.
  induction bs as [|b rest IH]; intros st.
  - exists []. simpl. rewrite app_nil_r. repeat split; auto.
  - rewrite run_batches_cons.
    destruct (batch_step b st) as [n [fs1 [Hn [Htr _]]]].
    set (st1 := snd (insert_batch vectorize b 0 st)) in *.
    destruct rest as [|b' rest'].
    + cbn [list_truthy run_batches]. exists (retry_trace b n).
      split; [exact Htr|]. split; [|split].
      * constructor; [apply In_retry_trace|constructor].
      * apply batch_pauses_retry_trace.
      * rewrite InsertFacts.posts_retry_trace. simpl. lia.
    + cbn [list_truthy].
      destruct (IH (log (EvSleep 1) st1)) as [t [Ht [Hall [Hp Hposts]]]].
      exists (retry_trace b n ++ [EvSleep 1] ++ t).
      split; [|split; [|split]].
      * rewrite Ht. simpl trace. rewrite Htr, <- !app_assoc. reflexivity.
      * constructor.
        -- apply in_or_app. left. apply In_retry_trace.
        -- eapply Forall_impl; [exact Hall|].
           intros x Hx. apply in_or_app. right. now right.
      * rewrite !batch_pauses_app, batch_pauses_retry_trace, Hp.
        simpl. lia.
      * rewrite !InsertFacts.posts_app, InsertFacts.posts_retry_trace.
        change (posts [EvSleep 1]) with 0%nat. simpl length in *. lia.
Qed.

Lemma total_size_batches d : total_size (batches d) = length d.
Proof.
  unfold total_size.
  rewrite <- (length_map vec_id), (proj1 (batches_partition d)).
  unfold keys. apply length_map.
Qed.

Lemma batch_ids_batches d : concat (map (map vec_id) (batches d)) = keys d.
Proof.
  rewrite <- concat_map. apply batches_partition.
Qed.

Lemma run_batches_accepted bs : forall st,
  (forall n v, vectorize n v = PostResult true) ->
  run_batches vectorize bs st =
    {| inserted_count := inserted_count st + Z.of_nat (total_size bs);
       failed_ids := failed_ids st;
       trace := trace st ++ accepted_trace bs |}.
Proof.
  induction bs as [|b rest IH]; intros st Hup.
  - simpl. unfold total_size. simpl. rewrite Z.add_0_r, app_nil_r.
    now destruct st.
  - rewrite run_batches_cons.
    rewrite (InsertFacts.insert_batch_accepted _ _ _ _ (Hup _ _)).
    rewrite total_size_cons. cbn [snd accepted_trace].
    destruct (list_truthy rest); rewrite (IH _ Hup); simpl;
      f_equal; try lia; rewrite <- !app_assoc; reflexivity.
Qed.

Lemma run_batches_down bs : forall st,
  (forall n v, vectorize n v = PostRaises) ->
  inserted_count (run_batches vectorize bs st) = inserted_count st /\
  failed_ids (run_batches vectorize bs st) =
    failed_ids st ++ concat (map (map vec_id) bs) /\
  posts (trace (run_batches vectorize bs st)) =
    (posts (trace st) + 4 * length bs)%nat.
Proof.
  induction bs as [|b rest IH]; intros st Hdown.
  - simpl. rewrite app_nil_r. repeat split; lia.
  - rewrite run_batches_cons.
    rewrite (InsertFacts.insert_batch_all_raise vectorize b 3 0 st)
      by (try reflexivity; try (unfold MAX_RETRIES; lia); intros; apply Hdown).
    cbn [snd].
    set (st1 := {| inserted_count := inserted_count st;
                   failed_ids := failed_ids st ++ map vec_id b;
                   trace := trace st ++ retry_trace b 3 |}).
    set (st2 := if list_truthy rest then log (EvSleep 1) st1 else st1).
    assert (I2 : inserted_count st2 = inserted_count st)
      by (unfold st2; destruct (list_truthy rest); reflexivity).
    assert (F2 : failed_ids st2 = failed_ids st ++ map vec_id b)
      by (unfold st2; destruct (list_truthy rest); reflexivity).
    assert (P2 : posts (trace st2) = (posts (trace st) + 4)%nat).
    { unfold st2. destruct (list_truthy rest); simpl;
        rewrite ?InsertFacts.posts_snoc_sleep, InsertFacts.posts_app,
          InsertFacts.posts_retry_trace; reflexivity. }
    destruct (IH st2 Hdown) as [I [F P]].
    rewrite I, F, P, I2, F2, P2. cbn [map concat length].
    rewrite <- app_assoc. repeat split; lia.
Qed.

(** X5.  Over a whole run no vector is counted twice: [inserted_count]
    never decreases, and what it gains plus the number of ids appended to
    [failed_ids] is at most the number of entries of the cache.  It is
    exactly that number when the index never answers [success=false]:
    then every id is either counted as inserted or listed as failed. *)
Theorem insert_all_accounts d st :
  inserted_count st <= inserted_count (insert_all vectorize d st) /\
  (inserted_count (insert_all vectorize d st) - inserted_count st)
    + (Z.of_nat (length (failed_ids (insert_all vectorize d st)))
       - Z.of_nat (length (failed_ids st)))
    <= Z.of_nat (length d) /\
  ((forall n v, vectorize n v <> PostResult false) ->
   (inserted_count (insert_all vectorize d st) - inserted_count st)
     + (Z.of_nat (length (failed_ids (insert_all vectorize d st)))
        - Z.of_nat (length (failed_ids st)))
     = Z.of_nat (length d)).
Proof.
  rewrite insert_all_batches.
  destruct (run_batches_accounts (batches d) st)
    as [Hmono [fs [Hf [_ [Hle Heq]]]]].
  rewrite total_size_batches in *. rewrite Hf, length_app.
  split; [exact Hmono|]. split; [lia|].
  intros Hno. specialize (Heq Hno). lia.
Qed.

(** X6.  The ids a run appends to [failed_ids] are keys of the cache, each
    at most once for distinct keys, in the order of the keys: they form a
    sublist of [keys]. *)
Theorem insert_all_failed_are_keys d st :
  exists fs,
    failed_ids (insert_all vectorize d st) = failed_ids st ++ fs /\
    fs `sublist_of` keys d.
Proof.
  rewrite insert_all_batches.
  destruct (run_batches_accounts (batches d) st)
    as [_ [fs [Hf [Hsub _]]]].
  exists fs. split; [exact Hf|]. now rewrite batch_ids_batches in Hsub.
Qed.

(** X7.  Whatever the index answers, a run submits every batch at least
    once (a batch that failed does not stop the run); the number of POSTs
    it makes lies between the number of batches and [MAX_RETRIES + 1]
    times that number; and it sleeps one second between consecutive
    batches: one pause less than there are batches. *)
Theorem insert_all_submits_every_batch d st :
  exists t,
    trace (insert_all vectorize d st) = trace st ++ t /\
    Forall (fun b => In (EvPost b) t) (batches d) /\
    batch_pauses t = (batch_count (length d) - 1)%nat /\
    (batch_count (length d) <= posts t <= 4 * batch_count (length d))%nat.
Proof.
  rewrite insert_all_batches.
  destruct (run_batches_trace (batches d) st) as [t [Ht [Hall [Hp Hposts]]]].
  assert (L : length (batches d) = batch_count (length d))
    by (rewrite batches_unfold, length_map; apply length_seq).
  rewrite L in *. exists t. auto.
Qed.

(** X8.  When the index accepts every request, a run counts every entry
    of the cache as inserted, marks nothing failed, and its trace is one
    POST per batch with a one-second sleep between two batches. *)
Theorem insert_all_accepted d st :
  (forall n v, vectorize n v = PostResult true) ->
  insert_all vectorize d st =
    {| inserted_count := inserted_count st + Z.of_nat (length d);
       failed_ids := failed_ids st;
       trace := trace st ++ accepted_trace (batches d) |}.
Proof.
  intros Hup. rewrite insert_all_batches, (run_batches_accepted _ _ Hup).
  now rewrite total_size_batches.
Qed.

(** X9.  When every request raises, a run counts nothing as inserted,
    appends every key of the cache to [failed_ids], in the order of the
    keys, and makes [MAX_RETRIES + 1] POSTs for each batch. *)
Theorem insert_all_index_down d st :
  (forall n v, vectorize n v = PostRaises) ->
  inserted_count (insert_all vectorize d st) = inserted_count st /\
  failed_ids (insert_all vectorize d st) = failed_ids st ++ keys d /\
  posts (trace (insert_all vectorize d st)) =
    (posts (trace st) + 4 * batch_count (length d))%nat.
Proof.
  intros Hdown. rewrite insert_all_batches.
  destruct (run_batches_down (batches d) st Hdown) as [I [F P]].
  rewrite I, F, P, batch_ids_batches.
  rewrite batches_unfold, length_map, length_seq. auto.
Qed.

Lemma run_batches_accepted_from bs : forall st,
  (forall n v, (posts (trace st) <= n)%nat -> vectorize n v = PostResult true) ->
  run_batches vectorize bs st =
    {| inserted_count := inserted_count st + Z.of_nat (total_size bs);
       failed_ids := failed_ids st;
       trace := trace st ++ accepted_trace bs |}.
Proof.
  induction bs as [|b rest IH]; intros st Hup.
  - simpl. unfold total_size. simpl. rewrite Z.add_0_r, app_nil_r.
    now destruct st.
  - rewrite run_batches_cons.
    rewrite (InsertFacts.insert_batch_accepted _ _ _ _ (Hup _ _ (le_n _))).
    rewrite total_size_cons. cbn [snd accepted_trace].
    destruct (list_truthy rest); rewrite IH; simpl;
      try (f_equal; try lia; rewrite <- !app_assoc; reflexivity);
      intros n v Hn; apply Hup;
      rewrite ?InsertFacts.posts_snoc_sleep, InsertFacts.posts_snoc_post in Hn;
      lia.
Qed.

(** X21.  A batch that fails does not affect the batches after it: when
    every attempt of the first batch raises and the index accepts every
    later request, a run over more than 100 entries lists exactly the
    first 100 keys as failed and counts all the other entries as
    inserted. *)
Theorem first_batch_fails_rest_inserted d st :
  (100 < length d)%nat ->
  (forall n v, (n < posts (trace st) + 4)%nat -> vectorize n v = PostRaises) ->
  (forall n v, (posts (trace st) + 4 <= n)%nat -> vectorize n v = PostResult true) ->
  failed_ids (insert_all vectorize d st) = failed_ids st ++ take 100 (keys d) /\
  inserted_count (insert_all vectorize d st) =
    inserted_count st + Z.of_nat (length d) - 100.
Proof.
  intros Hlen Hdown Hup.
  rewrite insert_all_batches.
  pose proof (total_size_batches d) as Htot.
  pose proof (batch_at_ids d 0) as Hids. rewrite drop_0 in Hids.
  rewrite batches_unfold in *.
  destruct (batch_count (length d)) as [|m] eqn:Hm.
  { pose proof (batch_count_covers (length d)). lia. }
  cbn [seq map] in *. change (Z.of_nat 0 * BATCH_SIZE) with 0 in *.
  set (b := batch_at d 0) in *.
  set (rest := map (fun k => batch_at d (Z.of_nat k * BATCH_SIZE)) (seq 1 m)) in *.
  assert (Hb : length b = 100%nat).
  { rewrite <- (length_map vec_id), Hids, length_take. unfold keys.
    rewrite length_map. lia. }
  rewrite total_size_cons, Hb in Htot.
  assert (Hrest : list_truthy rest = true).
  { destruct rest; [|reflexivity]. unfold total_size in Htot. simpl in Htot. lia. }
  rewrite run_batches_cons, Hrest.
  rewrite (InsertFacts.insert_batch_all_raise vectorize b 3 0 st)
    by (try reflexivity; try (unfold MAX_RETRIES; lia);
        intros k Hk; apply Hdown; lia).
  cbn [snd].
  rewrite run_batches_accepted_from.
  - simpl. rewrite Hids. split; [reflexivity|]. lia.
  - intros n v Hn. apply Hup. simpl in Hn.
    rewrite InsertFacts.posts_snoc_sleep, InsertFacts.posts_app,
      InsertFacts.posts_retry_trace in Hn. lia.
Qed.

End WholeRuns.

Lemma insert_all_accepted_witness :
  insert_all index_up (cache_of_size 250) init =
    {| inserted_count := 0 + Z.of_nat (length (cache_of_size 250));
       failed_ids := [];
       trace := [] ++ accepted_trace (batches (cache_of_size 250)) |}.
Proof.
  apply (insert_all_accepted index_up (cache_of_size 250) init).
  intros n v. reflexivity.
Defined.

Lemma first_batch_fails_rest_inserted_witness :
  failed_ids (insert_all index_fails_first_batch (cache_of_size 250) init) =
    [] ++ take 100 (keys (cache_of_size 250)) /\
  inserted_count (insert_all index_fails_first_batch (cache_of_size 250) init) =
    0 + Z.of_nat (length (cache_of_size 250)) - 100.
Proof.
  apply (first_batch_fails_rest_inserted index_fails_first_batch
           (cache_of_size 250) init).
  - vm_compute. lia.
  - intros n v Hn. unfold index_fails_first_batch.
    simpl in Hn. destruct (Nat.ltb_spec n 4); [reflexivity|lia].
  - intros n v Hn. unfold index_fails_first_batch.
    simpl in Hn. destruct (Nat.ltb_spec n 4); [lia|reflexivity].
Defined.

Lemma insert_all_index_down_witness :
  inserted_count (insert_all index_down (cache_of_size 250) init) = 0 /\
  failed_ids (insert_all index_down (cache_of_size 250) init) =
    [] ++ keys (cache_of_size 250) /\
  posts (trace (insert_all index_down (cache_of_size 250) init)) =
    (0 + 4 * batch_count (length (cache_of_size 250)))%nat.
Proof.
  apply (insert_all_index_down index_down (cache_of_size 250) init).
  intros n v. reflexivity.
Defined.

End RunFacts.

(** ** Further properties of the embedding generator *)

Module EmbedRunFacts.

Import Embed EmbedScenarios.

Section WithService.

Variable workers_ai : nat -> string -> embed_outcome.

(** The three ways one iteration can go. *)
Lemma embed_lesson_cases force_regen i l c st :
  (exists e,
     embed_lesson workers_ai force_regen i l c st = (Raise e, st) /\
     (id l = None /\ e = KeyError "id" \/
      exists k, id l = Some k /\
                contains (embeddings_cache st) k && negb force_regen = false /\
                create_lesson_text l = Raise e)) \/
  (exists k,
     id l = Some k /\ contains (embeddings_cache st) k = true /\
     force_regen = false /\
     embed_lesson workers_ai force_regen i l c st = (Ok (incr_skipped c), st)) \/
  (exists k txt t q,
     id l = Some k /\
     contains (embeddings_cache st) k && negb force_regen = false /\
     create_lesson_text l = Ok txt /\
     title l = Some t /\ tacticalConcept l = Some q).
Proof.
  destruct (id l) as [k|] eqn:Hid.
  - destruct (contains (embeddings_cache st) k && negb force_regen) eqn:Hskip.
    + right; left. apply andb_true_iff in Hskip as [Hc Hf].
      apply negb_true_iff in Hf. subst force_regen.
      exists k. repeat split; auto.
      exact (EmbedFacts.embed_lesson_cached workers_ai i l c st k Hid Hc).
    + destruct (create_lesson_text l) as [txt|e] eqn:Htxt.
      * right; right.
        destruct (EmbedFacts.create_lesson_text_inv _ _ Htxt) as [[t Ht] [q Hq]].
        exists k, txt, t, q. auto.
      * left. exists e. split.
        -- unfold embed_lesson, bind, lift. rewrite Hid. simpl.
           now rewrite Hskip, Htxt.
        -- right. exists k. auto.
  - left. exists (KeyError "id"). split.
    + unfold embed_lesson, bind, lift. now rewrite Hid.
    + left. auto.
Qed.

(** An invariant of the iterations that return is an invariant of the
    loop when it returns. *)
Lemma embed_from_ok_inv force_regen (P : Z -> counters -> state -> Prop)
    (all : list lesson) :
  (forall i l c st c' st',
     In l all -> P i c st ->
     embed_lesson workers_ai force_regen i l c st = (Ok c', st') ->
     P (i + 1) c' st') ->
  forall lessons, (forall l, In l lessons -> In l all) ->
  forall i c st c' st',
    P i c st ->
    embed_from workers_ai force_regen i lessons c st = (Ok c', st') ->
    P (i + Z.of_nat (length lessons)) c' st'.
Proof.
  intros Hstep lessons.
  induction lessons as [|l rest IH]; intros Hin i c st c' st' HP Hrun.
  - simpl in Hrun. inversion Hrun; subst. simpl. now rewrite Z.add_0_r.
  - simpl in Hrun. unfold bind in Hrun.
    destruct (embed_lesson workers_ai force_regen i l c st)
      as [[c1|e] st1] eqn:E; [|discriminate].
    replace (i + Z.of_nat (length (l :: rest)))
      with (i + 1 + Z.of_nat (length rest)) by (simpl length; lia).
    apply (IH (fun x Hx => Hin x (or_intror Hx)) (i + 1) c1 st1); [|exact Hrun].
    apply (Hstep i l c st); auto. apply Hin. now left.
Qed.

(** A relation between positions and states that every iteration keeps,
    whether it returns or raises, holds at the end of the loop, whether it
    returns or raises. *)
Lemma embed_from_state_inv force_regen (P : Z -> state -> Prop)
    (all : list lesson) :
  (forall i st, P i st -> P (i + 1) st) ->
  (forall i l c st c' st',
     In l all -> P i st ->
     embed_lesson workers_ai force_regen i l c st = (Ok c', st') ->
     P (i + 1) st') ->
  forall lessons, (forall l, In l lessons -> In l all) ->
  forall i c st,
    P i st ->
    P (i + Z.of_nat (length lessons))
      (snd (embed_from workers_ai force_regen i lessons c st)).
Proof.
  intros Hmono Hstep lessons.
  assert (Hweak : forall n i st, P i st -> P (i + Z.of_nat n) st).
  { induction n as [|n IHn]; intros i st HP.
    - now rewrite Z.add_0_r.
    - replace (i + Z.of_nat (S n)) with (i + Z.of_nat n + 1) by lia.
      apply Hmono, IHn, HP. }
  induction lessons as [|l rest IH]; intros Hin i c st HP.
  - simpl. now rewrite Z.add_0_r.
  - simpl embed_from. unfold bind.
    destruct (embed_lesson workers_ai force_regen i l c st)
      as [[c1|e] st1] eqn:E.
    + replace (i + Z.of_nat (length (l :: rest)))
        with (i + 1 + Z.of_nat (length rest)) by (simpl length; lia).
      apply (IH (fun x Hx => Hin x (or_intror Hx))).
      apply (Hstep i l c st c1 st1); auto. apply Hin. now left.
    + simpl. apply EmbedFacts.embed_lesson_raise_state in E. subst st1.
      now apply Hweak.
Qed.

(** The loop over a concatenation is the loop over the first part followed
    by the loop over the second, from where the first one stopped. *)
Lemma embed_from_app force_regen pre : forall suf i c st,
  embed_from workers_ai force_regen i (pre ++ suf) c st =
    match embed_from workers_ai force_regen i pre c st with
    | (Ok c1, st1) =>
        embed_from workers_ai force_regen (i + Z.of_nat (length pre)) suf c1 st1
    | (Raise e, st1) => (Raise e, st1)
    end.
Proof.
  induction pre as [|l pre IH]; intros suf i c st.
  - simpl. unfold ret. now rewrite Z.add_0_r.
  - simpl app. simpl embed_from. unfold bind.
    destruct (embed_lesson workers_ai force_regen i l c st) as [[c1|e] st1];
      [|reflexivity].
    rewrite IH.
    replace (i + 1 + Z.of_nat (length pre))
      with (i + Z.of_nat (length (l :: pre))) by (simpl length; lia).
    reflexivity.
Qed.

(** A run is the loop followed, when the loop returns, by the final
    flush. *)
Lemma batch_embed_lessons_unfold lessons force_regen st :
  batch_embed_lessons workers_ai lessons force_regen st =
    match embed_from workers_ai force_regen 1 lessons zero st with
    | (Ok c, st1) =>
        (Ok c,
         {| embeddings_cache := embeddings_cache st1;
            disk := {| curriculum_json := curriculum_json (disk st1);
                       embeddings_dir := true;
                       lesson_vectors_json :=
                         Some (Document (embeddings_cache st1)) |};
            trace := trace st1 |})
    | (Raise e, st1) => (Raise e, st1)
    end.
Proof.
  unfold batch_embed_lessons, bind, zero.
  destruct (embed_from workers_ai force_regen 1 lessons _ st) as [[c|e] st1];
    reflexivity.
Qed.

Lemma requests_processed t txt (b : bool) :
  requests (t ++ EvEmbed txt :: (if b then [EvSleep rate_limit_pause] else []))
    = S (requests t).
Proof.
  unfold requests. rewrite List.filter_app, length_app.
  destruct b; simpl; lia.
Qed.

Lemma pauses_processed t txt (b : bool) :
  pauses (t ++ EvEmbed txt :: (if b then [EvSleep rate_limit_pause] else []))
    = (pauses t + (if b then 1 else 0))%nat.
Proof.
  unfold pauses. rewrite List.filter_app, length_app.
  destruct b; simpl; lia.
Qed.

(** What the loop does to the counters and to the number of requests,
    when it returns. *)
Lemma embed_from_counters force_regen lessons i c st c' st' :
  embed_from workers_ai force_regen i lessons c st = (Ok c', st') ->
  embedded c <= embedded c' /\ skipped c <= skipped c' /\ failed c <= failed c' /\
  (embedded c' - embedded c) + (skipped c' - skipped c) + (failed c' - failed c)
    = Z.of_nat (length lessons) /\
  Z.of_nat (requests (trace st')) =
    Z.of_nat (requests (trace st))
    + (embedded c' - embedded c) + (failed c' - failed c) /\
  (force_regen = true -> skipped c' = skipped c).
Proof.
  intros Hrun.
  pose (P := fun (j : Z) (x : counters) (s : state) =>
    embedded c <= embedded x /\ skipped c <= skipped x /\ failed c <= failed x /\
    (embedded x - embedded c) + (skipped x - skipped c) + (failed x - failed c)
      = j - i /\
    Z.of_nat (requests (trace s)) =
      Z.of_nat (requests (trace st))
      + (embedded x - embedded c) + (failed x - failed c) /\
    (force_regen = true -> skipped x = skipped c)).
  assert (G : P (i + Z.of_nat (length lessons)) c' st').
  { apply (embed_from_ok_inv force_regen P lessons) with (lessons := lessons)
      (i := i) (c := c) (st := st); auto.
    - intros j l x s x' s' _ HP Hstep.
      destruct HP as [H1 [H2 [H3 [H4 [H5 H6]]]]].
      destruct (embed_lesson_cases force_regen j l x s)
        as [[e [E _]]|[[k [Hid [Hc [Hf E]]]]|[k [txt [t [q [Hid [Hs [Htxt [Ht Hq]]]]]]]]]].
      + rewrite E in Hstep. discriminate.
      + rewrite E in Hstep. inversion Hstep; subst x' s'. unfold P. simpl.
        repeat split; try lia. intros ->. discriminate.
      + rewrite (EmbedFacts.embed_lesson_processed _ _ _ _ _ _ _ _ _ _
                   Hid Hs Htxt Ht Hq) in Hstep.
        cbv zeta in Hstep. inversion Hstep; subst x' s'. unfold P. simpl trace.
        rewrite requests_processed.
        destruct (truthy _); simpl; repeat split; try lia; auto.
    - unfold P. repeat split; try lia. }
  destruct G as [H1 [H2 [H3 [H4 [H5 H6]]]]].
  repeat split; auto; lia.
Qed.

(** A lesson with its id and its three required keys cannot make an
    iteration raise. *)
Lemma embed_from_complete_ok force_regen lessons : forall i c st,
  Forall (fun l => complete l = true) lessons ->
  exists c', fst (embed_from workers_ai force_regen i lessons c st) = Ok c'.
Proof.
  induction lessons as [|l rest IH]; intros i c st Hall.
  - exists c. reflexivity.
  - inversion Hall as [|? ? Hl Hrest]; subst.
    simpl embed_from. unfold bind.
    destruct (embed_lesson_cases force_regen i l c st)
      as [[e [E H]]|[[k [Hid [Hc [Hf E]]]]|[k [txt [t [q [Hid [Hs [Htxt [Ht Hq]]]]]]]]]].
    + exfalso. unfold complete in Hl.
      destruct H as [[Hid _]|[k [Hid [_ Htxt]]]].
      * rewrite Hid in Hl. discriminate.
      * unfold create_lesson_text in Htxt. rewrite Hid in Hl.
        destruct (title l), (tacticalConcept l), (historicalValidator l);
          simpl in Htxt; discriminate.
    + rewrite E. apply IH, Hrest.
    + rewrite (EmbedFacts.embed_lesson_processed _ _ _ _ _ _ _ _ _ _
                 Hid Hs Htxt Ht Hq).
      cbv zeta. apply IH, Hrest.
Qed.

(** X11.  [create_lesson_text] returns a text exactly when the lesson has
    its title, concept and validator; otherwise it raises [KeyError] for
    the first of the three keys, in that order, that is absent.  The id,
    the phase and the module id never make it raise. *)
Theorem create_lesson_text_key_errors l :
  ((exists txt, create_lesson_text l = Ok txt) <->
   is_Some (title l) /\ is_Some (tacticalConcept l) /\
   is_Some (historicalValidator l)) /\
  (title l = None -> create_lesson_text l = Raise (KeyError "title")) /\
  (is_Some (title l) -> tacticalConcept l = None ->
   create_lesson_text l = Raise (KeyError "tacticalConcept")) /\
  (is_Some (title l) -> is_Some (tacticalConcept l) ->
   historicalValidator l = None ->
   create_lesson_text l = Raise (KeyError "historicalValidator")).
Proof.
  unfold create_lesson_text, is_Some.
  destruct (title l) as [t|], (tacticalConcept l) as [q|],
    (historicalValidator l) as [v|]; simpl;
    repeat split; intros;
    repeat match goal with
           | H : exists _, _ |- _ => destruct H
           | H : _ /\ _ |- _ => destruct H
           end;
    try discriminate; eauto.
Qed.

(** X12.  A lesson without an id, or a lesson that is not a cache hit and
    lacks one of the three required keys, aborts the run where it stands:
    the run raises [KeyError], the lessons after it are not processed and
    the final flush does not happen, so the state is the one the loop had
    reached before that lesson. *)
Theorem malformed_lesson_aborts_run force_regen pre l suf st c1 st1 :
  embed_from workers_ai force_regen 1 pre zero st = (Ok c1, st1) ->
  (id l = None \/
   exists k, id l = Some k /\
     contains (embeddings_cache st1) k && negb force_regen = false /\
     (title l = None \/ tacticalConcept l = None \/
      historicalValidator l = None)) ->
  exists key,
    batch_embed_lessons workers_ai (pre ++ l :: suf) force_regen st =
      (Raise (KeyError key), st1).
Proof.
  intros Hpre Hbad.
  assert (E : exists key,
    embed_lesson workers_ai force_regen (1 + Z.of_nat (length pre)) l c1 st1 =
      (Raise (KeyError key), st1)).
  { destruct Hbad as [Hid|[k [Hid [Hskip Hkey]]]].
    - exists "id". unfold embed_lesson, bind, lift. now rewrite Hid.
    - assert (T : exists key, create_lesson_text l = Raise (KeyError key)).
      { unfold create_lesson_text.
        destruct (title l), (tacticalConcept l), (historicalValidator l);
          simpl; eauto; destruct Hkey as [H|[H|H]]; discriminate. }
      destruct T as [key T]. exists key.
      unfold embed_lesson, bind, lift. rewrite Hid. simpl.
      now rewrite Hskip, T. }
  destruct E as [key E]. exists key.
  rewrite batch_embed_lessons_unfold, embed_from_app, Hpre.
  simpl embed_from. unfold bind. now rewrite E.
Qed.

(** X13.  When a run returns, every lesson was counted once: the three
    counters are non-negative and add up to the number of lessons; and
    every lesson that was not skipped cost exactly one request, so the
    run made [embedded + failed] requests. *)
Theorem counters_add_up lessons force_regen st c st' :
  batch_embed_lessons workers_ai lessons force_regen st = (Ok c, st') ->
  0 <= embedded c /\ 0 <= skipped c /\ 0 <= failed c /\
  embedded c + skipped c + failed c = Z.of_nat (length lessons) /\
  Z.of_nat (requests (trace st')) =
    Z.of_nat (requests (trace st)) + embedded c + failed c.
Proof.
  rewrite batch_embed_lessons_unfold.
  destruct (embed_from workers_ai force_regen 1 lessons zero st)
    as [[c1|e] st1] eqn:E; [|discriminate].
  intros H. inversion H; subst c st'. simpl trace.
  destruct (embed_from_counters _ _ _ _ _ _ _ E) as [H1 [H2 [H3 [H4 [H5 _]]]]].
  simpl in *. repeat split; lia.
Qed.


(** The loop never touches the curriculum file. *)
Lemma embed_from_curriculum force_regen lessons i c st :
  curriculum_json (disk (snd (embed_from workers_ai force_regen i lessons c st)))
    = curriculum_json (disk st).
Proof.
  pose (P := fun (_ : Z) (s : state) =>
    curriculum_json (disk s) = curriculum_json (disk st)).
  apply (embed_from_state_inv force_regen P lessons) with (lessons := lessons);
    unfold P; auto.
  intros j l x s x' s' _ HP Hstep.
  destruct (embed_lesson_cases force_regen j l x s)
    as [[e' [E _]]|[[k' [Hid [Hc [Hf E]]]]|[k' [txt [t [q [Hid [Hs [Htxt [Ht Hq]]]]]]]]]].
  - rewrite E in Hstep. discriminate.
  - rewrite E in Hstep. inversion Hstep; subst. exact HP.
  - rewrite (EmbedFacts.embed_lesson_processed _ _ _ _ _ _ _ _ _ _
               Hid Hs Htxt Ht Hq) in Hstep.
    cbv zeta in Hstep. inversion Hstep; subst x' s'. simpl.
    destruct (j mod 20 =? 0); exact HP.
Qed.

(** X15.  A run that returns ends with a flush: the cache file then holds
    the document of the in-memory cache, the curriculum file is as it
    was, and a generator constructed on that disk loads exactly that
    cache. *)
Theorem run_ends_with_flush lessons force_regen st c st' :
  batch_embed_lessons workers_ai lessons force_regen st = (Ok c, st') ->
  lesson_vectors_json (disk st') = Some (Document (embeddings_cache st')) /\
  curriculum_json (disk st') = curriculum_json (disk st) /\
  __init__ {| embeddings_cache := ∅; disk := disk st'; trace := [] |} =
    (Ok tt, {| embeddings_cache := embeddings_cache st';
               disk := disk st'; trace := [] |}).
Proof.
  rewrite batch_embed_lessons_unfold.
  pose proof (embed_from_curriculum force_regen lessons 1 zero st) as Hcur.
  destruct (embed_from workers_ai force_regen 1 lessons zero st)
    as [[c1|e] st1] eqn:E; [|discriminate].
  intros H. inversion H; subst c st'. simpl in *.
  repeat split; auto.
Qed.

(** Without forced regeneration, a loop that returns without having
    counted a failure leaves every one of its lessons in the cache. *)
Lemma clean_loop_caches_all lessons : forall i c st c' st',
  embed_from workers_ai false i lessons c st = (Ok c', st') ->
  failed c <= failed c' /\
  (failed c' = failed c ->
   forall l, In l lessons -> uncached (embeddings_cache st') l = false).
Proof.
  induction lessons as [|l rest IH]; intros i c st c' st' Hrun.
  - simpl in Hrun. inversion Hrun; subst. split; [lia|]. intros _ l [].
  - simpl in Hrun. unfold bind in Hrun.
    destruct (embed_lesson workers_ai false i l c st) as [[c1|e] st1] eqn:E;
      [|discriminate].
    destruct (IH _ _ _ _ _ Hrun) as [Hle Hall].
    pose proof (EmbedFacts.embed_from_keeps_entries workers_ai rest
                  (i + 1) c1 st1) as [Hkeep _].
    rewrite Hrun in Hkeep. simpl in Hkeep.
    assert (S1 : failed c <= failed c1 /\
                 (failed c1 = failed c ->
                  uncached (embeddings_cache st1) l = false)).
    { destruct (embed_lesson_cases false i l c st)
        as [[e' [E' _]]|[[k [Hid [Hc [Hf E']]]]|[k [txt [t [q [Hid [Hs [Htxt [Ht Hq]]]]]]]]]].
      - rewrite E' in E. discriminate.
      - rewrite E' in E. inversion E; subst c1 st1. simpl. split; [lia|].
        intros _. unfold uncached. now rewrite Hid, Hc.
      - rewrite (EmbedFacts.embed_lesson_processed _ _ _ _ _ _ _ _ _ _
                   Hid Hs Htxt Ht Hq) in E.
        cbv zeta in E. inversion E; subst c1 st1. clear E.
        destruct (truthy _); simpl.
        + split; [lia|]. intros _. unfold uncached, contains.
          now rewrite Hid, lookup_insert_eq.
        + split; [lia|]. intros H. lia. }
    destruct S1 as [Hle1 Hl]. split; [lia|].
    intros Heq l' [<-|Hin].
    + assert (Hl1 : uncached (embeddings_cache st1) l = false)
        by (apply Hl; lia).
      destruct (uncached (embeddings_cache st') l) eqn:U; [|reflexivity].
      rewrite (EmbedFacts.uncached_mono _ _ _ Hkeep U) in Hl1. discriminate.
    + apply Hall; [lia|exact Hin].
Qed.

End WithService.

(** X16.  After a run without forced regeneration that returned and
    counted no failure, running again over the same lessons makes no
    request, whatever service is then behind the endpoint: every lesson
    is skipped and the state, disk included, is left exactly as it
    was. *)
Theorem rerun_after_clean_run (workers_ai later : nat -> string -> embed_outcome)
    lessons st c st' :
  batch_embed_lessons workers_ai lessons false st = (Ok c, st') ->
  failed c = 0 ->
  batch_embed_lessons later lessons false st' =
    (Ok {| embedded := 0; skipped := Z.of_nat (length lessons); failed := 0 |},
     st').
Proof.
  rewrite batch_embed_lessons_unfold.
  destruct (embed_from workers_ai false 1 lessons zero st)
    as [[c1|e] st1] eqn:E; [|discriminate].
  intros H Hf. inversion H; subst c st'. clear H.
  destruct (clean_loop_caches_all _ _ _ _ _ _ _ E) as [_ Hall].
  specialize (Hall Hf).
  rewrite batch_embed_lessons_unfold.
  rewrite EmbedFacts.embed_from_all_cached by exact Hall.
  reflexivity.
Qed.

Section Throttle.

Variable workers_ai : nat -> string -> embed_outcome.

(** X17.  With forced regeneration a run over lessons that have their id
    and required keys skips nothing: it makes one request for each
    lesson, cached or not, and pauses once for every [BATCH_SIZE]
    lessons. *)
Theorem forced_run_requests_every_lesson lessons st :
  Forall (fun l => complete l = true) lessons ->
  exists c st',
    batch_embed_lessons workers_ai lessons true st = (Ok c, st') /\
    skipped c = 0 /\
    embedded c + failed c = Z.of_nat (length lessons) /\
    Z.of_nat (requests (trace st')) =
      Z.of_nat (requests (trace st)) + Z.of_nat (length lessons) /\
    Z.of_nat (pauses (trace st')) =
      Z.of_nat (pauses (trace st)) + Z.of_nat (length lessons) / BATCH_SIZE.
Proof.
  intros Hall.
  pose proof (EmbedFacts.forced_run_pauses workers_ai lessons st Hall) as HP.
  rewrite batch_embed_lessons_unfold in *.
  destruct (embed_from_complete_ok workers_ai true lessons 1 zero st Hall)
    as [c Hc].
  destruct (embed_from workers_ai true 1 lessons zero st)
    as [[c1|e] st1] eqn:E; simpl in Hc; [|discriminate].
  inversion Hc; subst c1.
  destruct (embed_from_counters _ _ _ _ _ _ _ _ E)
    as [H1 [H2 [H3 [H4 [H5 H6]]]]].
  specialize (H6 eq_refl). simpl in *.
  eexists _, _. split; [reflexivity|]. simpl.
  repeat split; try lia.
Qed.

(** X20.  The generator never retries and never pauses more often than
    once per [BATCH_SIZE] lessons: whatever the service answers, and
    whether the run returns or aborts, it makes at most one request per
    lesson and at most [n / BATCH_SIZE] pauses for [n] lessons. *)
Theorem throttle_bounds lessons force_regen st :
  (requests (trace (snd (batch_embed_lessons workers_ai lessons force_regen st)))
     <= requests (trace st) + length lessons)%nat /\
  Z.of_nat
    (pauses (trace (snd (batch_embed_lessons workers_ai lessons force_regen st))))
    <= Z.of_nat (pauses (trace st)) + Z.of_nat (length lessons) / BATCH_SIZE.
Proof.
  pose (P := fun (i : Z) (s : state) =>
    Z.of_nat (requests (trace s)) <= Z.of_nat (requests (trace st)) + (i - 1) /\
    Z.of_nat (pauses (trace s)) <=
      Z.of_nat (pauses (trace st)) + (i - 1) / BATCH_SIZE).
  assert (M : forall i, (i - 1) / BATCH_SIZE <= i / BATCH_SIZE).
  { intros i. apply Z.div_le_mono; unfold BATCH_SIZE; lia. }
  assert (G : P (1 + Z.of_nat (length lessons))
                (snd (embed_from workers_ai force_regen 1 lessons zero st))).
  { apply (embed_from_state_inv workers_ai force_regen P lessons); auto.
    - intros i s [H1 H2]. unfold P.
      replace (i + 1 - 1) with i by lia. specialize (M i). lia.
    - intros j l x s x' s' _ [H1 H2] Hstep. unfold P.
      replace (j + 1 - 1) with j by lia.
      destruct (embed_lesson_cases workers_ai force_regen j l x s)
        as [[e' [E _]]|[[k' [Hid [Hc [Hf E]]]]|[k' [txt [t [q [Hid [Hs [Htxt [Ht Hq]]]]]]]]]].
      + rewrite E in Hstep. discriminate.
      + rewrite E in Hstep. inversion Hstep; subst. specialize (M j). lia.
      + rewrite (EmbedFacts.embed_lesson_processed _ _ _ _ _ _ _ _ _ _
                   Hid Hs Htxt Ht Hq) in Hstep.
        cbv zeta in Hstep. inversion Hstep; subst x' s'. simpl trace.
        rewrite requests_processed, pauses_processed.
        pose proof (EmbedFacts.multiples_step j) as S.
        destruct (j mod BATCH_SIZE =? 0); lia.
    - unfold P. simpl. change ((1 - 1) / BATCH_SIZE) with 0. lia. }
  destruct G as [G1 G2].
  replace (1 + Z.of_nat (length lessons) - 1)
    with (Z.of_nat (length lessons)) in * by lia.
  rewrite batch_embed_lessons_unfold.
  destruct (embed_from workers_ai force_regen 1 lessons zero st)
    as [[c1|x] st1]; simpl in *; split; lia.
Qed.




End Throttle.

Lemma malformed_lesson_aborts_run_witness :
  exists key,
    batch_embed_lessons service_up
      ([mk_lesson "L01" 1] ++ no_id :: [mk_lesson "L02" 1]) false
      (fresh ∅ disk_with_snapshot) =
    (Raise (KeyError key),
     snd (embed_from service_up false 1 [mk_lesson "L01" 1] zero
            (fresh ∅ disk_with_snapshot))).
Proof.
  apply (malformed_lesson_aborts_run service_up false
           [mk_lesson "L01" 1] no_id [mk_lesson "L02" 1]
           (fresh ∅ disk_with_snapshot)
           {| embedded := 1; skipped := 0; failed := 0 |}).
  - vm_compute. reflexivity.
  - left. reflexivity.
Defined.

Lemma counters_add_up_witness :
  0 <= 9 /\ 0 <= 1 /\ 0 <= 0 /\
  9 + 1 + 0 = Z.of_nat (length ten_lessons) /\
  Z.of_nat
    (requests
       (trace (snd (batch_embed_lessons service_up ten_lessons false
                      (fresh cache_L10 disk_with_snapshot))))) =
    Z.of_nat (requests (trace (fresh cache_L10 disk_with_snapshot))) + 9 + 0.
Proof.
  apply (counters_add_up service_up ten_lessons false
           (fresh cache_L10 disk_with_snapshot)
           {| embedded := 9; skipped := 1; failed := 0 |}).
  vm_compute. reflexivity.
Defined.


Lemma run_ends_with_flush_witness :
  lesson_vectors_json
    (disk (snd (batch_embed_lessons service_down ten_lessons false
                  (fresh cache_L10 disk_with_snapshot)))) =
    Some (Document
            (embeddings_cache
               (snd (batch_embed_lessons service_down ten_lessons false
                       (fresh cache_L10 disk_with_snapshot))))) /\
  curriculum_json
    (disk (snd (batch_embed_lessons service_down ten_lessons false
                  (fresh cache_L10 disk_with_snapshot)))) =
    curriculum_json (disk (fresh cache_L10 disk_with_snapshot)) /\
  __init__
    {| embeddings_cache := ∅;
       disk := disk (snd (batch_embed_lessons service_down ten_lessons false
                            (fresh cache_L10 disk_with_snapshot)));
       trace := [] |} =
    (Ok tt,
     {| embeddings_cache :=
          embeddings_cache
            (snd (batch_embed_lessons service_down ten_lessons false
                    (fresh cache_L10 disk_with_snapshot)));
        disk := disk (snd (batch_embed_lessons service_down ten_lessons false
                             (fresh cache_L10 disk_with_snapshot)));
        trace := [] |}).
Proof.
  apply (run_ends_with_flush service_down ten_lessons false
           (fresh cache_L10 disk_with_snapshot)
           {| embedded := 0; skipped := 1; failed := 9 |}).
  vm_compute. reflexivity.
Defined.

Lemma rerun_after_clean_run_witness :
  batch_embed_lessons service_down ten_lessons false
    (snd (batch_embed_lessons service_up ten_lessons false
            (fresh ∅ disk_with_snapshot))) =
    (Ok {| embedded := 0; skipped := Z.of_nat (length ten_lessons); failed := 0 |},
     snd (batch_embed_lessons service_up ten_lessons false
            (fresh ∅ disk_with_snapshot))).
Proof.
  apply (rerun_after_clean_run service_up service_down ten_lessons
           (fresh ∅ disk_with_snapshot)
           {| embedded := 10; skipped := 0; failed := 0 |}).
  - vm_compute. reflexivity.
  - reflexivity.
Defined.

Lemma forced_run_requests_every_lesson_witness :
  exists c st',
    batch_embed_lessons service_up ten_lessons true
      (fresh cache_L10 disk_with_snapshot) = (Ok c, st') /\
    skipped c = 0 /\
    embedded c + failed c = Z.of_nat (length ten_lessons) /\
    Z.of_nat (requests (trace st')) =
      Z.of_nat (requests (trace (fresh cache_L10 disk_with_snapshot)))
      + Z.of_nat (length ten_lessons) /\
    Z.of_nat (pauses (trace st')) =
      Z.of_nat (pauses (trace (fresh cache_L10 disk_with_snapshot)))
      + Z.of_nat (length ten_lessons) / BATCH_SIZE.
Proof.
  apply (forced_run_requests_every_lesson service_up ten_lessons
           (fresh cache_L10 disk_with_snapshot)).
  repeat constructor.
Defined.


End EmbedRunFacts.

(** ** Positions in a run

    Statements about the record at a given 1-based position of a run of
    [batch_embed_lessons]: the lessons before it are [pre], so that its
    position is [length pre + 1]. *)

Module PositionFacts.

Import Embed EmbedScenarios.

Section WithService.

Variable workers_ai : nat -> string -> embed_outcome.


(** A run that returned differs from the state its loop reached by the
    final flush only. *)
Lemma returned_run_loop_state lessons force_regen st c st' :
  batch_embed_lessons workers_ai lessons force_regen st = (Ok c, st') ->
  exists s,
    embed_from workers_ai force_regen 1 lessons zero st = (Ok c, s) /\
    embeddings_cache s = embeddings_cache st' /\ trace s = trace st'.
Proof.
  rewrite EmbedRunFacts.batch_embed_lessons_unfold.
  destruct (embed_from workers_ai force_regen 1 lessons zero st)
    as [[c1|e] s] eqn:E; [|discriminate].
  intros H. inversion H; subst. exists s. auto.
Qed.

(** The run over [pre ++ [l]], in terms of the loop over [pre]. *)
Lemma run_snoc force_regen pre l st c1 s :
  embed_from workers_ai force_regen 1 pre zero st = (Ok c1, s) ->
  batch_embed_lessons workers_ai (pre ++ [l]) force_regen st =
    match embed_lesson workers_ai force_regen
            (Z.of_nat (length pre) + 1) l c1 s with
    | (Ok c2, s2) =>
        (Ok c2,
         {| embeddings_cache := embeddings_cache s2;
            disk := {| curriculum_json := curriculum_json (disk s2);
                       embeddings_dir := true;
                       lesson_vectors_json :=
                         Some (Document (embeddings_cache s2)) |};
            trace := trace s2 |})
    | (Raise e, s2) => (Raise e, s2)
    end.
Proof.
  intros Hpre.
  rewrite EmbedRunFacts.batch_embed_lessons_unfold,
    EmbedRunFacts.embed_from_app, Hpre.
  simpl embed_from. unfold bind. rewrite (Z.add_comm 1).
  destruct (embed_lesson workers_ai force_regen
              (Z.of_nat (length pre) + 1) l c1 s) as [[c2|e] s2];
    reflexivity.
Qed.




(** C9.  In a run of [batch_embed_lessons], let [l] be a record for which
    a request is made (it is reached, is not skipped as a cache hit and
    has the keys the loop reads) and let the service answer that request
    with a well-formed success response whose vector is the empty list.
    The empty list is falsy, so the run over the records up to [l] returns
    with [failed] one higher than before [l] and with the cache as it was
    before [l]: no entry is written.  Every longer run that returns has
    counted that failure too. *)
Theorem empty_vector_failed_in_run force_regen pre l st c1 st1 k txt :
  batch_embed_lessons workers_ai pre force_regen st = (Ok c1, st1) ->
  id l = Some k ->
  contains (embeddings_cache st1) k && negb force_regen = false ->
  create_lesson_text l = Ok txt ->
  workers_ai (requests (trace st1)) txt = EmbedData [] ->
  truthy (Some []) = false /\
  (exists st2,
     batch_embed_lessons workers_ai (pre ++ [l]) force_regen st =
       (Ok (incr_failed c1), st2) /\
     embeddings_cache st2 = embeddings_cache st1) /\
  (forall suf c st3,
     batch_embed_lessons workers_ai (pre ++ l :: suf) force_regen st =
       (Ok c, st3) ->
     failed c1 + 1 <= failed c /\ embedded c1 <= embedded c).
Proof.
  intros Hpre Hid Hskip Htxt Hresp.
  destruct (returned_run_loop_state _ _ _ _ _ Hpre) as [s [Hloop [Hc Ht]]].
  rewrite <- Hc in Hskip. rewrite <- Ht in Hresp.
  destruct (EmbedFacts.create_lesson_text_inv _ _ Htxt) as [[t Htt] [q Hq]].
  pose proof (EmbedFacts.embed_lesson_processed workers_ai force_regen
                (Z.of_nat (length pre) + 1) l c1 s k txt t q
                Hid Hskip Htxt Htt Hq) as Hstep.
  rewrite Hresp in Hstep. cbv zeta in Hstep. simpl truthy in Hstep.
  cbv iota in Hstep.
  split; [reflexivity|]. split.
  - rewrite (run_snoc _ _ l _ _ _ Hloop), Hstep.
    eexists. split; [reflexivity|]. simpl. exact Hc.
  - intros suf c st3.
    rewrite EmbedRunFacts.batch_embed_lessons_unfold,
      EmbedRunFacts.embed_from_app, Hloop.
    simpl embed_from. unfold bind. rewrite (Z.add_comm 1), Hstep.
    destruct (embed_from workers_ai force_regen
                (Z.of_nat (length pre) + 1 + 1) suf (incr_failed c1) _)
      as [[c2|e] s2] eqn:E; [|discriminate].
    intros H. inversion H; subst c.
    destruct (EmbedRunFacts.embed_from_counters _ _ _ _ _ _ _ _ E)
      as [H1 [_ [H3 _]]].
    simpl in H1, H3. lia.
Qed.

(** What the iteration for [l] does to the disk. *)
Lemma embed_lesson_disk force_regen i l c s :
  disk (snd (embed_lesson workers_ai force_regen i l c s)) =
    match id l with
    | None => disk s
    | Some k =>
        if contains (embeddings_cache s) k && negb force_regen then disk s
        else match create_lesson_text l with
             | Raise _ => disk s
             | Ok _ =>
                 if i mod 20 =? 0 then
                   {| curriculum_json := curriculum_json (disk s);
                      embeddings_dir := true;
                      lesson_vectors_json :=
                        Some (Document
                                (embeddings_cache
                                   (snd (embed_lesson workers_ai force_regen
                                           i l c s)))) |}
                 else disk s
             end
    end.
Proof.
  destruct (EmbedRunFacts.embed_lesson_cases workers_ai force_regen i l c s)
    as [[e [E H]]|[[k [Hid [Hc [Hf E]]]]|[k [txt [t [q [Hid [Hs [Htxt [Ht Hq]]]]]]]]]].
  - rewrite E. simpl.
    destruct H as [[Hid _]|[k [Hid [Hs Htxt]]]]; rewrite Hid;
      [reflexivity|]. now rewrite Hs, Htxt.
  - rewrite E. simpl. subst force_regen. now rewrite Hid, Hc.
  - rewrite (EmbedFacts.embed_lesson_processed _ _ _ _ _ _ _ _ _ _
               Hid Hs Htxt Ht Hq).
    cbv zeta. simpl. rewrite Hid, Hs, Htxt.
    destruct (i mod 20 =? 0); reflexivity.
Qed.

(** A run that is aborted by the record right after [l] ends in the state
    the iteration for [l] left. *)
Lemma run_aborted_after force_regen pre l bad suf st c1 st1 :
  embed_from workers_ai force_regen 1 pre zero st = (Ok c1, st1) ->
  id bad = None ->
  snd (batch_embed_lessons workers_ai (pre ++ l :: bad :: suf) force_regen st)
    = snd (embed_lesson workers_ai force_regen
             (Z.of_nat (length pre) + 1) l c1 st1).
Proof.
  intros Hpre Hbad.
  rewrite EmbedRunFacts.batch_embed_lessons_unfold,
    EmbedRunFacts.embed_from_app, Hpre.
  simpl embed_from. unfold bind. rewrite (Z.add_comm 1).
  destruct (embed_lesson workers_ai force_regen
              (Z.of_nat (length pre) + 1) l c1 st1) as [[c2|e] s2];
    [|reflexivity].
  assert (E : embed_lesson workers_ai force_regen
                (Z.of_nat (length pre) + 1 + 1) bad c2 s2 =
              (Raise (KeyError "id"), s2))
    by (unfold embed_lesson, bind, lift; now rewrite Hbad).
  now rewrite E.
Qed.

(** X19.  What is on disk when a run stops right after the record at
    1-based position [i = length pre + 1] (the next record has no id and
    aborts the run): the cache as it is after that record, exactly when
    [i] is a multiple of 20 and a request was made for the record (it has
    its id and its required keys and was not skipped as a cache hit); in
    every other case the disk is as the loop left it before that
    record. *)
Theorem periodic_flush_at_position force_regen pre l bad suf st c1 st1 :
  embed_from workers_ai force_regen 1 pre zero st = (Ok c1, st1) ->
  id bad = None ->
  disk (snd (batch_embed_lessons workers_ai (pre ++ l :: bad :: suf)
               force_regen st)) =
    match id l with
    | None => disk st1
    | Some k =>
        if contains (embeddings_cache st1) k && negb force_regen then disk st1
        else match create_lesson_text l with
             | Raise _ => disk st1
             | Ok _ =>
                 if (Z.of_nat (length pre) + 1) mod 20 =? 0 then
                   {| curriculum_json := curriculum_json (disk st1);
                      embeddings_dir := true;
                      lesson_vectors_json :=
                        Some (Document
                                (embeddings_cache
                                   (snd (batch_embed_lessons workers_ai
                                           (pre ++ l :: bad :: suf)
                                           force_regen st)))) |}
                 else disk st1
             end
    end.
Proof.
  intros Hpre Hbad.
  rewrite (run_aborted_after _ _ _ _ _ _ _ _ Hpre Hbad).
  apply embed_lesson_disk.
Qed.

(** X18.  With both variables set: when [data/curriculum.json] is absent the
    script exits with status 0 having done nothing; when it is not JSON
    the script exits with status 1 having done nothing; when it holds
    lessons that all have their id and required keys, and the cache file
    is absent or holds a cache document, the script exits with status 0
    whatever the embedding service answers, and leaves a cache document
    on disk. *)
Theorem embed_script_outcomes env d :
  unset (CLOUDFLARE_ACCOUNT_ID env) || unset (CLOUDFLARE_API_TOKEN env) = false ->
  (curriculum_json d = None ->
   script workers_ai env d = {| exit_code := 0; final_disk := d; effects := [] |}) /\
  (curriculum_json d = Some Unparseable ->
   script workers_ai env d = {| exit_code := 1; final_disk := d; effects := [] |}) /\
  (forall ls,
     curriculum_json d = Some (Document (Some ls)) ->
     Forall (fun l => complete l = true) ls -> ls <> [] ->
     lesson_vectors_json d <> Some Unparseable ->
     exit_code (script workers_ai env d) = 0 /\
     exists m,
       lesson_vectors_json (final_disk (script workers_ai env d)) =
         Some (Document m)).
Proof.
  intros Henv. unfold script. rewrite Henv. unfold main. simpl.
  split; [|split].
  - intros ->. reflexivity.
  - intros ->. reflexivity.
  - intros ls -> Hall Hne Hcache.
    destruct ls as [|l ls]; [now contradiction Hne|]. simpl. unfold bind.
    pose proof (EmbedFacts.init_spec
                  {| embeddings_cache := ∅; disk := d; trace := [] |}) as I.
    simpl in I.
    destruct (lesson_vectors_json d) as [[|m]|] eqn:Hc;
      [now contradiction Hcache| |]; rewrite I;
      rewrite EmbedRunFacts.batch_embed_lessons_unfold;
      match goal with
      | |- context [embed_from workers_ai false 1 (l :: ls) zero ?s0] =>
          destruct (EmbedRunFacts.embed_from_complete_ok workers_ai false
                      (l :: ls) 1 zero s0 Hall) as [c Hc'];
          destruct (embed_from workers_ai false 1 (l :: ls) zero s0)
            as [[c1|e] s1]; simpl in Hc'; [|discriminate]
      end; simpl; split; eauto.
Qed.

End WithService.


Lemma empty_vector_failed_in_run_witness :
  truthy (Some []) = false /\
  (exists st2,
     batch_embed_lessons service_empty
       ([mk_lesson "L01" 1] ++ [mk_lesson "L02" 1]) false
       (fresh ∅ disk_with_snapshot) =
       (Ok (incr_failed {| embedded := 0; skipped := 0; failed := 1 |}), st2) /\
     embeddings_cache st2 =
       embeddings_cache
         (snd (batch_embed_lessons service_empty [mk_lesson "L01" 1] false
                 (fresh ∅ disk_with_snapshot)))) /\
  (forall suf c st3,
     batch_embed_lessons service_empty
       ([mk_lesson "L01" 1] ++ mk_lesson "L02" 1 :: suf) false
       (fresh ∅ disk_with_snapshot) = (Ok c, st3) ->
     failed {| embedded := 0; skipped := 0; failed := 1 |} + 1 <= failed c /\
     embedded {| embedded := 0; skipped := 0; failed := 1 |} <= embedded c).
Proof.
  apply (empty_vector_failed_in_run service_empty false [mk_lesson "L01" 1]
           (mk_lesson "L02" 1) (fresh ∅ disk_with_snapshot)
           {| embedded := 0; skipped := 0; failed := 1 |}
           (snd (batch_embed_lessons service_empty [mk_lesson "L01" 1] false
                   (fresh ∅ disk_with_snapshot)))
           "L02" "Lesson L02 | Concept | Validator | Phase: Foundation").
  - vm_compute. reflexivity.
  - reflexivity.
  - vm_compute. reflexivity.
  - reflexivity.
  - reflexivity.
Defined.

Lemma periodic_flush_at_position_witness :
  lesson_vectors_json
    (disk (snd (batch_embed_lessons service_up
                  ((ten_lessons ++ take 9 ten_lessons)
                   ++ mk_lesson "L20" 3 :: no_id :: [mk_lesson "L21" 3])
                  true (fresh ∅ disk_with_snapshot)))) =
    Some (Document
            (embeddings_cache
               (snd (batch_embed_lessons service_up
                       ((ten_lessons ++ take 9 ten_lessons)
                        ++ mk_lesson "L20" 3 :: no_id :: [mk_lesson "L21" 3])
                       true (fresh ∅ disk_with_snapshot))))).
Proof.
  rewrite (periodic_flush_at_position service_up true
             (ten_lessons ++ take 9 ten_lessons) (mk_lesson "L20" 3) no_id
             [mk_lesson "L21" 3] (fresh ∅ disk_with_snapshot)
             {| embedded := 19; skipped := 0; failed := 0 |}
             (snd (embed_from service_up true 1
                     (ten_lessons ++ take 9 ten_lessons) zero
                     (fresh ∅ disk_with_snapshot))))
    at 1.
  - reflexivity.
  - vm_compute. reflexivity.
  - reflexivity.
Defined.

Lemma embed_script_outcomes_witness :
  exit_code (script service_down env_ok disk_with_snapshot) = 0 /\
  exists m,
    lesson_vectors_json
      (final_disk (script service_down env_ok disk_with_snapshot)) =
      Some (Document m).
Proof.
  apply (proj2 (proj2 (embed_script_outcomes service_down env_ok
                         disk_with_snapshot eq_refl))
           [mk_lesson "L01" 1]).
  - reflexivity.
  - repeat constructor.
  - discriminate.
  - discriminate.
Defined.

End PositionFacts.

(** ** The upload script *)

Module UploadScriptFacts.

Import Insert InsertRun RunScenarios.

(** X10.  For a cache file that is absent, is not JSON, or holds a cache
    document (an object of entries with a vector and metadata): with a
    required variable unset or empty the upload script exits with status
    1 without building an inserter; with both set, it exits with status 1
    on a file that is not JSON, with status 0 and no inserter on an absent
    file or an empty document, and with status 0 after [insert_all] on a
    non-empty document, whatever happened to the batches. *)
Theorem upload_script_outcomes vectorize env cache_file :
  (Embed.unset (Embed.CLOUDFLARE_ACCOUNT_ID env)
     || Embed.unset (Embed.CLOUDFLARE_API_TOKEN env) = true ->
   script vectorize env cache_file = (1, None)) /\
  (Embed.unset (Embed.CLOUDFLARE_ACCOUNT_ID env)
     || Embed.unset (Embed.CLOUDFLARE_API_TOKEN env) = false ->
   (cache_file = Some Embed.Unparseable ->
    script vectorize env cache_file = (1, None)) /\
   (cache_file = None \/ cache_file = Some (Embed.Document []) ->
    script vectorize env cache_file = (0, None)) /\
   (forall d, d <> [] -> cache_file = Some (Embed.Document d) ->
      script vectorize env cache_file =
        (0, Some (insert_all vectorize d init)))).
Proof.
  unfold script, main. split; intros Henv; rewrite Henv; [reflexivity|].
  split; [|split].
  - intros ->. reflexivity.
  - intros [->| ->]; reflexivity.
  - intros d Hne ->. destruct d; [now contradiction Hne|reflexivity].
Qed.

End UploadScriptFacts.
